(** * Gypsum analysis service: the analysis runner, its output parser and
      its fallback estimators

    A shallow embedding of [internal/services] (the Go package of
    [AnalysisService]) and of [internal/models].  Go's [float64] is the
    kernel's binary64 [float]; Go's [int] and [int64] are [Z] with the
    64-bit wrap-around written out; a Go [string] is a [string] of bytes.
    Three functions of Go's library stay parameters of the service:
    [strconv.ParseFloat], [fmt.Errorf] on a format without operands, and
    [filepath.Join]. *)

From Stdlib Require Import ZArith Floats Uint63 Ascii String List Lia DecimalString.
From Stdlib Require DecimalPos.
From stdpp Require Import gmap strings.

Set Warnings "-inexact-float".
Local Open Scope Z_scope.

(** ** Go integers *)

Module GoInt.

(** Two's complement wrap-around of a 64-bit [int]. *)
Definition wrap64 (z : Z) : Z := (z + 2 ^ 63) mod 2 ^ 64 - 2 ^ 63.

Definition add (a b : Z) : Z := wrap64 (a + b).
Definition sub (a b : Z) : Z := wrap64 (a - b).
Definition shl (a n : Z) : Z := wrap64 (Z.shiftl a n).

(** [float64(n)] for an [int] [n]: the nearest binary64 value. *)
Definition to_float64 (n : Z) : float :=
  if n =? - 2 ^ 63 then (- 0x1p63)%float
  else if n <? 0 then (- PrimFloat.of_uint63 (Uint63.of_Z (- n)))%float
  else PrimFloat.of_uint63 (Uint63.of_Z n).

(** [fmt]'s [%d]. *)
Definition to_decimal (n : Z) : string := NilZero.string_of_int (Z.to_int n).

End GoInt.

(** ** UTF-8: the runes a [for _, char := range s] loop visits *)

Module Utf8.

Definition byte (c : ascii) : Z := Z.of_N (N_of_ascii c).

Definition RuneError : Z := 0xFFFD.

Definition within (lo hi b : Z) : bool := (lo <=? b) && (b <=? hi).

(** Continuation bytes keep their low six bits. *)
Definition push (acc b : Z) : Z := Z.lor (Z.shiftl acc 6) (Z.land b 0x3F).

(** [utf8.DecodeRuneInString]: the first rune of [s] and its width in
    bytes.  An ill-formed or truncated sequence yields [RuneError] with
    width one. *)
Definition DecodeRuneInString (s : string) : Z * nat :=
  match s with
  | EmptyString => (RuneError, 0%nat)
  | String c0 r0 =>
    let b0 := byte c0 in
    if b0 <? 0x80 then (b0, 1%nat)
    else if (b0 <? 0xC2) || (0xF4 <? b0) then (RuneError, 1%nat)
    else if b0 <? 0xE0 then
      match r0 with
      | String c1 _ =>
        if within 0x80 0xBF (byte c1)
        then (push (Z.land b0 0x1F) (byte c1), 2%nat)
        else (RuneError, 1%nat)
      | _ => (RuneError, 1%nat)
      end
    else if b0 <? 0xF0 then
      let lo := if b0 =? 0xE0 then 0xA0 else 0x80 in
      let hi := if b0 =? 0xED then 0x9F else 0xBF in
      match r0 with
      | String c1 (String c2 _) =>
        if within lo hi (byte c1) && within 0x80 0xBF (byte c2)
        then (push (push (Z.land b0 0x0F) (byte c1)) (byte c2), 3%nat)
        else (RuneError, 1%nat)
      | _ => (RuneError, 1%nat)
      end
    else
      let lo := if b0 =? 0xF0 then 0x90 else 0x80 in
      let hi := if b0 =? 0xF4 then 0x8F else 0xBF in
      match r0 with
      | String c1 (String c2 (String c3 _)) =>
        if within lo hi (byte c1) && within 0x80 0xBF (byte c2)
           && within 0x80 0xBF (byte c3)
        then (push (push (push (Z.land b0 0x07) (byte c1)) (byte c2)) (byte c3),
              4%nat)
        else (RuneError, 1%nat)
      | _ => (RuneError, 1%nat)
      end
  end.

(** The runes of a [range] loop over [s]: decode at the current byte,
    then step over the bytes the rune took ([skip] counts those left). *)
Fixpoint runes_from (skip : nat) (s : string) : list Z :=
  match s with
  | EmptyString => []
  | String _ r =>
    match skip with
    | S k => runes_from k r
    | O => let (rune, width) := DecodeRuneInString s in
           rune :: runes_from (Nat.pred width) r
    end
  end.

Definition runes (s : string) : list Z := runes_from 0 s.

End Utf8.

(** ** The [strings] package, as far as the parser uses it *)

Module GoStrings.

(** [unicode.IsSpace]: the Latin-1 cases, then the White_Space table. *)
Definition IsSpace (r : Z) : bool :=
  if r <=? 0xFF then
    (Utf8.within 0x09 0x0D r) || (r =? 0x20) || (r =? 0x85) || (r =? 0xA0)
  else
    (r =? 0x1680) || Utf8.within 0x2000 0x200A r || Utf8.within 0x2028 0x2029 r
    || (r =? 0x202F) || (r =? 0x205F) || (r =? 0x3000).

Definition byte_at (s : string) (i : Z) : Z :=
  match String.get (Z.to_nat i) s with
  | Some c => Utf8.byte c
  | None => 0
  end.

Definition RuneStart (b : Z) : bool := negb (Z.land b 0xC0 =? 0x80).

(** The backward scan of [utf8.DecodeLastRuneInString]: from [start]
    down to [lim], stopping on the first byte that starts a rune. *)
Fixpoint scan_back (s : string) (steps : nat) (start lim : Z) : Z :=
  match steps with
  | O => start
  | S k =>
    if start <? lim then start
    else if RuneStart (byte_at s start) then start
    else scan_back s k (start - 1) lim
  end.

Definition DecodeLastRuneInString (s : string) : Z * nat :=
  let end_ := Z.of_nat (String.length s) in
  if end_ =? 0 then (Utf8.RuneError, 0%nat)
  else
    let start := end_ - 1 in
    let r := byte_at s start in
    if r <? 0x80 then (r, 1%nat)
    else
      let lim := Z.max 0 (end_ - 4) in
      let start := scan_back s 4 (start - 1) lim in
      let start := Z.max 0 start in
      let (r, size) :=
        Utf8.DecodeRuneInString
          (String.substring (Z.to_nat start) (Z.to_nat (end_ - start)) s) in
      if start + Z.of_nat size =? end_ then (r, size) else (Utf8.RuneError, 1%nat).

(** [strings.TrimLeftFunc(s, unicode.IsSpace)]; [skip] counts the bytes
    of a white-space rune still to step over. *)
Fixpoint trim_left_from (skip : nat) (s : string) : string :=
  match s with
  | EmptyString => EmptyString
  | String _ r =>
    match skip with
    | S k => trim_left_from k r
    | O => let (rune, width) := Utf8.DecodeRuneInString s in
           if IsSpace rune then trim_left_from (Nat.pred width) r else s
    end
  end.

(** [strings.TrimRightFunc(s, unicode.IsSpace)]; a string of [n] bytes
    loses at most [n] runes. *)
Fixpoint trim_right_upto (n : nat) (s : string) : string :=
  match n with
  | O => s
  | S k =>
    let (rune, width) := DecodeLastRuneInString s in
    if negb (Nat.eqb width 0) && IsSpace rune
    then trim_right_upto k (String.substring 0 (String.length s - width) s)
    else s
  end.

(** [strings.TrimSpace]: its byte-wise fast path and its rune-wise slow
    path both remove the leading and the trailing white-space runes. *)
Definition TrimSpace (s : string) : string :=
  let s := trim_left_from 0 s in
  trim_right_upto (String.length s) s.

(** [strings.Split(s, sep)] for a separator [sep] of one byte. *)
Fixpoint Split (s : string) (sep : ascii) : list string :=
  match s with
  | EmptyString => [EmptyString]
  | String c r =>
    if Ascii.eqb c sep then EmptyString :: Split r sep
    else match Split r sep with
         | h :: t => String c h :: t
         | [] => [String c EmptyString]
         end
  end.

(** [strings.Contains(s, sep)] for a separator of one byte. *)
Fixpoint Contains (s : string) (sep : ascii) : bool :=
  match s with
  | EmptyString => false
  | String c r => Ascii.eqb c sep || Contains r sep
  end.

(** [strings.Cut]: the text before and after the first [sep]. *)
Fixpoint Cut (s : string) (sep : ascii) : option (string * string) :=
  match s with
  | EmptyString => None
  | String c r =>
    if Ascii.eqb c sep then Some (EmptyString, r)
    else match Cut r sep with
         | Some (before, after) => Some (String c before, after)
         | None => None
         end
  end.

(** [strings.SplitN(s, sep, n)] for [n >= 0] and a separator of one
    byte: at most [n] pieces, the last one the unsplit remainder. *)
Fixpoint SplitN (s : string) (sep : ascii) (n : nat) : list string :=
  match n with
  | O => []
  | S O => [s]
  | S n' =>
    match Cut s sep with
    | None => [s]
    | Some (before, after) => before :: SplitN after sep n'
    end
  end.

End GoStrings.

(** ** The [strconv] package *)

Module Strconv.

Definition digit (c : ascii) : option Z :=
  let b := Utf8.byte c in
  if Utf8.within 48 57 b then Some (b - 48) else None.

Fixpoint digits (s : string) (acc : Z) : option Z :=
  match s with
  | EmptyString => Some acc
  | String c r =>
    match digit c with
    | Some d => digits r (acc * 10 + d)
    | None => None
    end
  end.

(** [strconv.Atoi] on a 64-bit platform: [Some n] when the error is
    [nil].  An optional sign, then one decimal digit or more; a value
    outside [int] is a range error. *)
Definition Atoi (s : string) : option Z :=
  match s with
  | EmptyString => None
  | String c r =>
    let signed := Ascii.eqb c "-" || Ascii.eqb c "+" in
    let body := if signed then r else s in
    match body with
    | EmptyString => None
    | _ =>
      match digits body 0 with
      | Some n =>
        let n := if Ascii.eqb c "-" then - n else n in
        if (- 2 ^ 63 <=? n) && (n <=? 2 ^ 63 - 1) then Some n else None
      | None => None
      end
    end
  end.

(** The decimal literals [strconv.ParseFloat] converts exactly: an
    optional sign, digits, and an optional point with more digits, the
    digits read as an integer below [2^52] and at most 22 of them after
    the point.  There the result is the integer divided by the power of
    ten, in binary64.  Every other text is reported as an error here;
    the concrete runs below only use such literals and texts that hold
    no number at all. *)
Fixpoint all_digits (s : string) : bool :=
  match s with
  | EmptyString => true
  | String c r => match digit c with Some _ => all_digits r | None => false end
  end.

Definition ParseFloat_decimal (s : string) : option float :=
  let neg := match s with String c _ => Ascii.eqb c "-" | _ => false end in
  let body :=
    match s with
    | String c r => if Ascii.eqb c "-" || Ascii.eqb c "+" then r else s
    | _ => s
    end in
  let (int_part, frac_part) :=
    match GoStrings.Cut body "." with
    | Some (i, f) => (i, f)
    | None => (body, EmptyString)
    end in
  if negb (all_digits int_part && all_digits frac_part) then None
  else if Nat.eqb (String.length int_part + String.length frac_part) 0 then None
  else
    match digits (int_part ++ frac_part) 0 with
    | Some m =>
      let e := String.length frac_part in
      if (m <? 2 ^ 52) && (e <=? 22)%nat then
        let f := (GoInt.to_float64 m / GoInt.to_float64 (10 ^ Z.of_nat e))%float in
        Some (if neg then (- f)%float else f)
      else None
    | None => None
    end.

End Strconv.

(** ** [internal/models]: the job record *)

Inductive AnalysisStatus : Set :=
  | StatusPending
  | StatusProcessing
  | StatusCompleted
  | StatusFailed.

(** [CreatedAt] and [CompletedAt] are clock readings; [CompletedAt] is a
    pointer in the source, [None] while it is [nil]. *)
Record AnalysisResult : Set := mkAnalysisResult {
  ID : string;
  Status : AnalysisStatus;
  CreatedAt : Z;
  CompletedAt : option Z;
  Error : string;
  PurityPercentage : float;
  Confidence : float;
  ImagePath : string;
  ImageSize : Z;
  AnalysisTime : Z;
  GypsumContent : float;
  ImpurityContent : float;
  CalciteContent : float;
  QuartzContent : float;
  OtherMinerals : float;
  ThresholdValue : float;
  ParticleCount : Z;
  AverageParticleSize : float
}.

(** Field assignments [result.F = v]. *)

Definition set_Status (v : AnalysisStatus) (r : AnalysisResult) : AnalysisResult :=
  mkAnalysisResult (ID r) v (CreatedAt r) (CompletedAt r) (Error r)
    (PurityPercentage r) (Confidence r) (ImagePath r) (ImageSize r)
    (AnalysisTime r) (GypsumContent r) (ImpurityContent r) (CalciteContent r)
    (QuartzContent r) (OtherMinerals r) (ThresholdValue r) (ParticleCount r)
    (AverageParticleSize r).

Definition set_CompletedAt (v : option Z) (r : AnalysisResult) : AnalysisResult :=
  mkAnalysisResult (ID r) (Status r) (CreatedAt r) v (Error r)
    (PurityPercentage r) (Confidence r) (ImagePath r) (ImageSize r)
    (AnalysisTime r) (GypsumContent r) (ImpurityContent r) (CalciteContent r)
    (QuartzContent r) (OtherMinerals r) (ThresholdValue r) (ParticleCount r)
    (AverageParticleSize r).

Definition set_Error (v : string) (r : AnalysisResult) : AnalysisResult :=
  mkAnalysisResult (ID r) (Status r) (CreatedAt r) (CompletedAt r) v
    (PurityPercentage r) (Confidence r) (ImagePath r) (ImageSize r)
    (AnalysisTime r) (GypsumContent r) (ImpurityContent r) (CalciteContent r)
    (QuartzContent r) (OtherMinerals r) (ThresholdValue r) (ParticleCount r)
    (AverageParticleSize r).

Definition set_PurityPercentage (v : float) (r : AnalysisResult) : AnalysisResult :=
  mkAnalysisResult (ID r) (Status r) (CreatedAt r) (CompletedAt r) (Error r) v
    (Confidence r) (ImagePath r) (ImageSize r) (AnalysisTime r)
    (GypsumContent r) (ImpurityContent r) (CalciteContent r) (QuartzContent r)
    (OtherMinerals r) (ThresholdValue r) (ParticleCount r)
    (AverageParticleSize r).

Definition set_Confidence (v : float) (r : AnalysisResult) : AnalysisResult :=
  mkAnalysisResult (ID r) (Status r) (CreatedAt r) (CompletedAt r) (Error r)
    (PurityPercentage r) v (ImagePath r) (ImageSize r) (AnalysisTime r)
    (GypsumContent r) (ImpurityContent r) (CalciteContent r) (QuartzContent r)
    (OtherMinerals r) (ThresholdValue r) (ParticleCount r)
    (AverageParticleSize r).

Definition set_ImagePath (v : string) (r : AnalysisResult) : AnalysisResult :=
  mkAnalysisResult (ID r) (Status r) (CreatedAt r) (CompletedAt r) (Error r)
    (PurityPercentage r) (Confidence r) v (ImageSize r) (AnalysisTime r)
    (GypsumContent r) (ImpurityContent r) (CalciteContent r) (QuartzContent r)
    (OtherMinerals r) (ThresholdValue r) (ParticleCount r)
    (AverageParticleSize r).

Definition set_AnalysisTime (v : Z) (r : AnalysisResult) : AnalysisResult :=
  mkAnalysisResult (ID r) (Status r) (CreatedAt r) (CompletedAt r) (Error r)
    (PurityPercentage r) (Confidence r) (ImagePath r) (ImageSize r) v
    (GypsumContent r) (ImpurityContent r) (CalciteContent r) (QuartzContent r)
    (OtherMinerals r) (ThresholdValue r) (ParticleCount r)
    (AverageParticleSize r).

Definition set_GypsumContent (v : float) (r : AnalysisResult) : AnalysisResult :=
  mkAnalysisResult (ID r) (Status r) (CreatedAt r) (CompletedAt r) (Error r)
    (PurityPercentage r) (Confidence r) (ImagePath r) (ImageSize r)
    (AnalysisTime r) v (ImpurityContent r) (CalciteContent r)
    (QuartzContent r) (OtherMinerals r) (ThresholdValue r) (ParticleCount r)
    (AverageParticleSize r).

Definition set_ImpurityContent (v : float) (r : AnalysisResult) : AnalysisResult :=
  mkAnalysisResult (ID r) (Status r) (CreatedAt r) (CompletedAt r) (Error r)
    (PurityPercentage r) (Confidence r) (ImagePath r) (ImageSize r)
    (AnalysisTime r) (GypsumContent r) v (CalciteContent r) (QuartzContent r)
    (OtherMinerals r) (ThresholdValue r) (ParticleCount r)
    (AverageParticleSize r).

Definition set_CalciteContent (v : float) (r : AnalysisResult) : AnalysisResult :=
  mkAnalysisResult (ID r) (Status r) (CreatedAt r) (CompletedAt r) (Error r)
    (PurityPercentage r) (Confidence r) (ImagePath r) (ImageSize r)
    (AnalysisTime r) (GypsumContent r) (ImpurityContent r) v (QuartzContent r)
    (OtherMinerals r) (ThresholdValue r) (ParticleCount r)
    (AverageParticleSize r).

Definition set_QuartzContent (v : float) (r : AnalysisResult) : AnalysisResult :=
  mkAnalysisResult (ID r) (Status r) (CreatedAt r) (CompletedAt r) (Error r)
    (PurityPercentage r) (Confidence r) (ImagePath r) (ImageSize r)
    (AnalysisTime r) (GypsumContent r) (ImpurityContent r) (CalciteContent r)
    v (OtherMinerals r) (ThresholdValue r) (ParticleCount r)
    (AverageParticleSize r).

Definition set_OtherMinerals (v : float) (r : AnalysisResult) : AnalysisResult :=
  mkAnalysisResult (ID r) (Status r) (CreatedAt r) (CompletedAt r) (Error r)
    (PurityPercentage r) (Confidence r) (ImagePath r) (ImageSize r)
    (AnalysisTime r) (GypsumContent r) (ImpurityContent r) (CalciteContent r)
    (QuartzContent r) v (ThresholdValue r) (ParticleCount r)
    (AverageParticleSize r).

Definition set_ThresholdValue (v : float) (r : AnalysisResult) : AnalysisResult :=
  mkAnalysisResult (ID r) (Status r) (CreatedAt r) (CompletedAt r) (Error r)
    (PurityPercentage r) (Confidence r) (ImagePath r) (ImageSize r)
    (AnalysisTime r) (GypsumContent r) (ImpurityContent r) (CalciteContent r)
    (QuartzContent r) (OtherMinerals r) v (ParticleCount r)
    (AverageParticleSize r).

Definition set_ParticleCount (v : Z) (r : AnalysisResult) : AnalysisResult :=
  mkAnalysisResult (ID r) (Status r) (CreatedAt r) (CompletedAt r) (Error r)
    (PurityPercentage r) (Confidence r) (ImagePath r) (ImageSize r)
    (AnalysisTime r) (GypsumContent r) (ImpurityContent r) (CalciteContent r)
    (QuartzContent r) (OtherMinerals r) (ThresholdValue r) v
    (AverageParticleSize r).

(** ** The fallback estimators *)

(** [hashString]: the shift-and-subtract hash.  [hash & hash] is written
    as in the source; it leaves [hash] as it is. *)
Definition hashString (input : string) : Z :=
  fold_left
    (fun hash char =>
       let hash := GoInt.add (GoInt.sub (GoInt.shl hash 5) hash) char in
       Z.land hash hash)
    (Utf8.runes input) 0.

(** [fmt.Sprintf("%d-%s", imageSize, imagePath)]. *)
Definition size_path_key (imageSize : Z) (imagePath : string) : string :=
  (GoInt.to_decimal imageSize ++ "-" ++ imagePath)%string.

Definition estimatePurityFromImage (imageSize : Z) (imagePath : string) : float :=
  let hash := hashString (size_path_key imageSize imagePath) in
  let purity := (60.0 + GoInt.to_float64 (Z.rem hash 35) * 1.0)%float in
  let purity :=
    if 100000 <? imageSize then (purity + 5.0)%float
    else if imageSize <? 50000 then (purity - 10.0)%float
    else purity in
  let purity := if (95.0 <? purity)%float then 95.0%float else purity in
  let purity := if (purity <? 30.0)%float then 30.0%float else purity in
  purity.

Definition estimateParticleCount (imageSize : Z) : Z :=
  let baseCount := Z.quot imageSize 2000 in
  let baseCount :=
    if 100000 <? imageSize then baseCount + 15
    else if imageSize <? 50000 then baseCount - 10
    else baseCount in
  let baseCount := if baseCount <? 5 then 5 else baseCount in
  let baseCount := if 100 <? baseCount then 100 else baseCount in
  baseCount.

Definition estimateThreshold (imageSize : Z) : float :=
  let baseThreshold := (120.0 + GoInt.to_float64 (Z.rem imageSize 60) * 0.5)%float in
  let baseThreshold :=
    if 100000 <? imageSize then (baseThreshold + 15.0)%float
    else if imageSize <? 50000 then (baseThreshold - 20.0)%float
    else baseThreshold in
  let baseThreshold :=
    if (200.0 <? baseThreshold)%float then 200.0%float else baseThreshold in
  let baseThreshold :=
    if (baseThreshold <? 80.0)%float then 80.0%float else baseThreshold in
  baseThreshold.

(** ** Confidence *)

(** [results[key]] of a Go map: the zero value when the key is missing. *)
Definition at_key (results : gmap string float) (key : string) : float :=
  default 0%float (results !! key).

Definition calculateConfidence (results : gmap string float) (particleCount : Z) : float :=
  let confidence := 0.5%float in
  let confidence := if 10 <? particleCount then (confidence + 0.2)%float else confidence in
  let confidence := if 50 <? particleCount then (confidence + 0.2)%float else confidence in
  let confidence :=
    if (0 <? at_key results "total_area")%float && (0 <? at_key results "image_area")%float
    then
      let coverage := (at_key results "total_area" / at_key results "image_area")%float in
      if (0.1 <? coverage)%float && (coverage <? 0.9)%float
      then (confidence + 0.1)%float
      else confidence
    else confidence in
  let confidence := if (1.0 <? confidence)%float then 1.0%float else confidence in
  confidence.


(** ** The output parser *)

Definition RESULTS_START : string := "ANALYSIS_RESULTS_START".
Definition RESULTS_END : string := "ANALYSIS_RESULTS_END".
Definition newline : ascii := "010".

(** What the scan of [parseFijiResults] has gathered: its local map
    [results] ([metrics] here, the service's own map has that name), its
    local [particleCount], zero until a line sets it, and [inResults]. *)
Record Parsed : Type := mkParsed {
  inResults : bool;
  metrics : gmap string float;
  particleCount : Z
}.

Definition nothing_parsed : Parsed := mkParsed false ∅ 0.

Section Parser.

(** [strconv.ParseFloat(s, 64)]: [Some v] when the error is [nil]. *)
Variable ParseFloat : string -> option float.

(** The body of the loop for a line that is no sentinel. *)
Definition parse_line (line : string) (st : Parsed) : Parsed :=
  if inResults st && GoStrings.Contains line ":" then
    match GoStrings.SplitN line ":" 2 with
    | [key; valueStr] =>
      if String.eqb key "particle_count" then
        match Strconv.Atoi valueStr with
        | Some count => mkParsed (inResults st) (metrics st) count
        | None => st
        end
      else
        match ParseFloat valueStr with
        | Some value => mkParsed (inResults st) (<[key := value]> (metrics st)) (particleCount st)
        | None => st
        end
    | _ => st
    end
  else st.

(** The loop over the lines: [continue] after the start sentinel,
    [break] at the end sentinel. *)
Fixpoint scan_lines (lines : list string) (st : Parsed) : Parsed :=
  match lines with
  | [] => st
  | line :: rest =>
    let line := GoStrings.TrimSpace line in
    if String.eqb line RESULTS_START
    then scan_lines rest (mkParsed true (metrics st) (particleCount st))
    else if String.eqb line RESULTS_END then st
    else scan_lines rest (parse_line line st)
  end.

Definition parse_output (output : string) : Parsed :=
  scan_lines (GoStrings.Split output newline) nothing_parsed.

End Parser.

(** ** Filling the record from the parsed values *)

(** [v, exists := results[key]; exists && v > 0]. *)
Definition positive_entry (results : gmap string float) (key : string) : option float :=
  match results !! key with
  | Some v => if (0 <? v)%float then Some v else None
  | None => None
  end.

(** The critical section of [parseFijiResults] on the job's record. *)
Definition record_results (p : Parsed) (analysisTime : Z) (result : AnalysisResult)
  : AnalysisResult :=
  let result :=
    match positive_entry (metrics p) "purity_percentage" with
    | Some purity => set_PurityPercentage purity result
    | None =>
      set_PurityPercentage
        (estimatePurityFromImage (ImageSize result) (ImagePath result)) result
    end in
  let result :=
    match positive_entry (metrics p) "gypsum_content" with
    | Some gypsum => set_GypsumContent gypsum result
    | None => set_GypsumContent (PurityPercentage result) result
    end in
  let result :=
    match positive_entry (metrics p) "impurity_content" with
    | Some impurity => set_ImpurityContent impurity result
    | None => set_ImpurityContent (100 - PurityPercentage result)%float result
    end in
  let result :=
    if 0 <? particleCount p
    then set_ParticleCount (particleCount p) result
    else set_ParticleCount (estimateParticleCount (ImageSize result)) result in
  let result :=
    match positive_entry (metrics p) "threshold_value" with
    | Some threshold => set_ThresholdValue threshold result
    | None => set_ThresholdValue (estimateThreshold (ImageSize result)) result
    end in
  let result := set_AnalysisTime analysisTime result in
  let result :=
    set_Confidence (calculateConfidence (metrics p) (particleCount p)) result in
  let result := set_CalciteContent (ImpurityContent result * 0.3)%float result in
  let result := set_QuartzContent (ImpurityContent result * 0.2)%float result in
  let result := set_OtherMinerals (ImpurityContent result * 0.5)%float result in
  result.

(** ** The analysis service *)

(** [internal/config]: the fields the service reads. *)
Record Config : Set := mkConfig {
  FijiPath : string;
  TempDir : string;
  AnalysisTimeout : Z
}.

(** [multipart.FileHeader]: the fields the service reads. *)
Record FileHeader : Set := mkFileHeader {
  Filename : string;
  Size : Z
}.

(** What the operating system answers during one run of a job.  An error
    is given by its message, [None] standing for [nil].  The deadline of
    the job's context is the system's business: a process stopped at the
    deadline is a [fiji_err], as a non-zero exit is. *)
Record World : Type := mkWorld {
  now : nat -> Z;                   (* the successive readings of time.Now, in ns *)
  open_err : option string;         (* file.Open() *)
  create_err : option string;       (* os.Create(destPath) *)
  copy_err : option string;         (* dst.ReadFrom(src) *)
  write_macro_err : option string;  (* os.WriteFile(macroPath, ...) *)
  fiji_output : string;             (* cmd.CombinedOutput(): the text ... *)
  fiji_err : option string          (* ... and the error *)
}.

(** The service's map [results], the number of clock readings taken so
    far, and [published]: the map as it stood at each [mutex.Unlock()],
    oldest first, which is what another holder of the lock can see. *)
Record State : Type := mkState {
  results : gmap string AnalysisResult;
  ticks : nat;
  published : list (gmap string AnalysisResult)
}.

(** A computation on the service; [None] is a run-time panic (a [nil]
    record dereferenced). *)
Definition M (A : Type) : Type := State -> option (A * State).

Definition ret {A : Type} (a : A) : M A := fun st => Some (a, st).

Definition bind {A B : Type} (m : M A) (k : A -> M B) : M B :=
  fun st =>
    match m st with
    | Some (a, st') => k a st'
    | None => None
    end.

Notation "'do' x <- m ; k" := (bind m (fun x => k))
  (at level 10, x name, m at level 100, k at level 200).
Notation "'do_' m ; k" := (bind m (fun _ => k))
  (at level 10, m at level 100, k at level 200).

(** [filepath.Ext]: the suffix from the last dot of the last element. *)
Fixpoint Ext (path : string) : string :=
  match path with
  | EmptyString => EmptyString
  | String c r =>
    match Ext r with
    | EmptyString =>
      if GoStrings.Contains r "/" then EmptyString
      else if Ascii.eqb c "." then path
      else EmptyString
    | e => e
    end
  end.

Section Service.

Variable ParseFloat : string -> option float.

(** The message of [fmt.Errorf(format)] called with a format and no
    operand: the format itself when it holds no [%]. *)
Variable Errorf : string -> string.

(** [filepath.Join] of a directory and a file name. *)
Variable Join : string -> string -> string.

Variable config : Config.
Variable world : World.

Definition time_Now : M Z :=
  fun st => Some (now world (ticks st), mkState (results st) (S (ticks st)) (published st)).

(** [s.mutex.Lock(); body; s.mutex.Unlock()]. *)
Definition locked {A : Type} (body : M A) : M A :=
  fun st =>
    match body st with
    | Some (a, st') =>
      Some (a, mkState (results st') (ticks st') (published st' ++ [results st']))
    | None => None
    end.

Definition store (analysisID : string) (result : AnalysisResult) : M unit :=
  fun st => Some (tt, mkState (<[analysisID := result]> (results st)) (ticks st) (published st)).

Definition lookup_result (analysisID : string) : M (option AnalysisResult) :=
  fun st => Some (results st !! analysisID, st).

(** Assignments through the pointer [s.results[analysisID]]: a missing
    record is a [nil] pointer. *)
Definition update (analysisID : string) (f : AnalysisResult -> AnalysisResult) : M unit :=
  fun st =>
    match results st !! analysisID with
    | Some result =>
      Some (tt, mkState (<[analysisID := f result]> (results st)) (ticks st) (published st))
    | None => None
    end.

Definition updateResultWithError (analysisID errorMsg : string) : M (option string) :=
  do_ locked (
    do found <- lookup_result analysisID ;
    match found with
    | Some _ =>
      do_ update analysisID (set_Status StatusFailed) ;
      do_ update analysisID (set_Error errorMsg) ;
      do now <- time_Now ;
      update analysisID (set_CompletedAt (Some now))
    | None => ret tt
    end) ;
  ret (Some (Errorf errorMsg)).

Definition saveUploadedFile (file : FileHeader) (destPath : string) : M (option string) :=
  match open_err world with
  | Some err => ret (Some ("failed to open uploaded file: " ++ err)%string)
  | None =>
    match create_err world with
    | Some err => ret (Some ("failed to create destination file: " ++ err)%string)
    | None =>
      match copy_err world with
      | Some err => ret (Some ("failed to copy file content: " ++ err)%string)
      | None => ret None
      end
    end
  end.

(** The macro's text is left out; what counts here is whether writing
    the file failed. *)
Definition createGypsumAnalysisMacro (macroPath imagePath : string) : M (option string) :=
  ret (write_macro_err world).

Definition parseFijiResults (analysisID output : string) (analysisTime : Z)
  : M (option string) :=
  let parsed := parse_output ParseFloat output in
  do_ locked (update analysisID (record_results parsed analysisTime)) ;
  ret None.

(** [time.Since(startTime).Milliseconds()] is the difference of two
    clock readings in whole milliseconds; [cmd.CombinedOutput()] is what
    the world answers. *)
Definition performFijiAnalysis (analysisID imagePath : string) : M (option string) :=
  do startTime <- time_Now ;
  let macroPath := Join (TempDir config) (analysisID ++ "_macro.ijm")%string in
  do err <- createGypsumAnalysisMacro macroPath imagePath ;
  match err with
  | Some err => ret (Some ("failed to create analysis macro: " ++ err)%string)
  | None =>
    let output := fiji_output world in
    let err := fiji_err world in
    do finished <- time_Now ;
    let analysisTime := Z.quot (finished - startTime) 1000000 in
    match err with
    | Some err =>
      updateResultWithError analysisID ("Fiji execution failed: " ++ err)%string
    | None =>
      do err <- parseFijiResults analysisID output analysisTime ;
      match err with
      | Some err =>
        updateResultWithError analysisID ("Failed to parse results: " ++ err)%string
      | None =>
        do_ locked (
          do now <- time_Now ;
          do_ update analysisID (set_Status StatusCompleted) ;
          do_ update analysisID (set_CompletedAt (Some now)) ;
          update analysisID (set_AnalysisTime analysisTime)) ;
        ret None
      end
    end
  end.

Definition new_result (analysisID : string) (createdAt : Z) (file : FileHeader)
  : AnalysisResult :=
  mkAnalysisResult analysisID StatusProcessing createdAt None EmptyString
    0%float 0%float EmptyString (Size file) 0
    0%float 0%float 0%float 0%float 0%float 0%float 0 0%float.

Definition AnalyzeGypsumImage (analysisID : string) (file : FileHeader) : M (option string) :=
  do createdAt <- time_Now ;
  let result := new_result analysisID createdAt file in
  do_ locked (store analysisID result) ;
  let imagePath := Join (TempDir config) (analysisID ++ Ext (Filename file))%string in
  do err <- saveUploadedFile file imagePath ;
  match err with
  | Some err =>
    updateResultWithError analysisID ("Failed to save uploaded file: " ++ err)%string
  | None =>
    do_ locked (update analysisID (set_ImagePath imagePath)) ;
    do err <- performFijiAnalysis analysisID imagePath ;
    match err with
    | Some err => updateResultWithError analysisID ("Analysis failed: " ++ err)%string
    | None => ret None
    end
  end.

Definition GetAnalysisStatus (analysisID : string) : M (option AnalysisResult) :=
  lookup_result analysisID.

End Service.


(** ** [internal/handlers]: the two endpoints *)

Module Handlers.

(** What [c.JSON(code, body)] sends: [gin.H{"error": ...}], the three
    fields of the accepted answer, or the job's record. *)
Inductive Body : Type :=
  | ErrorBody (error : string)
  | AcceptedBody (analysis_id status message : string)
  | ResultBody (result : AnalysisResult).

Record Response : Type := mkResponse {
  StatusCode : Z;
  ResponseBody : Body
}.

Definition is_upper (c : ascii) : bool := Utf8.within 65 90 (Utf8.byte c).

Definition lower_byte (c : ascii) : ascii :=
  if is_upper c then ascii_of_N (N_of_ascii c + 32) else c.

Fixpoint all_ascii (s : string) : bool :=
  match s with
  | EmptyString => true
  | String c r => (Utf8.byte c <? 0x80) && all_ascii r
  end.

Fixpoint has_upper (s : string) : bool :=
  match s with
  | EmptyString => false
  | String c r => is_upper c || has_upper r
  end.

Fixpoint lower_bytes (s : string) : string :=
  match s with
  | EmptyString => EmptyString
  | String c r => String (lower_byte c) (lower_bytes r)
  end.

Section Endpoints.

(** [strings.Map(unicode.ToLower, s)], which [strings.ToLower] falls back
    to when [s] holds a byte that is not ASCII. *)
Variable ToLower_runes : string -> string.

(** [strings.ToLower]: an ASCII string is lowered byte by byte, and
    returned as it is when it holds no upper-case letter. *)
Definition ToLower (s : string) : string :=
  if all_ascii s then
    if has_upper s then lower_bytes s else s
  else ToLower_runes s.

(** [AnalyzeGypsum]: [formFile] is what [c.FormFile("image")] returns,
    [None] for an error; [uuid] is what [uuid.New().String()] returns.
    The second component is the call the handler hands to a goroutine. *)
Definition AnalyzeGypsum (formFile : option FileHeader) (uuid : string)
  : Response * option (string * FileHeader) :=
  match formFile with
  | None => (mkResponse 400 (ErrorBody "No image file provided"), None)
  | Some file =>
    let ext := ToLower (Ext (Filename file)) in
    if negb (String.eqb ext ".jpg") && negb (String.eqb ext ".jpeg")
       && negb (String.eqb ext ".png") && negb (String.eqb ext ".tiff")
       && negb (String.eqb ext ".tif")
    then
      (mkResponse 400
         (ErrorBody "Unsupported file type. Please upload JPG, PNG, or TIFF images"),
       None)
    else
      let analysisID := uuid in
      (mkResponse 202
         (AcceptedBody analysisID "processing" "Analysis started successfully"),
       Some (analysisID, file))
  end.

End Endpoints.

(** [GetAnalysisStatus]: [analysisID] is [c.Param("id")]. *)
Definition GetAnalysisStatus (analysisID : string) : M Response :=
  if String.eqb analysisID EmptyString then
    ret (mkResponse 400 (ErrorBody "Analysis ID is required"))
  else
    do status <- GetAnalysisStatus analysisID ;
    match status with
    | None => ret (mkResponse 404 (ErrorBody "Analysis not found"))
    | Some result => ret (mkResponse 200 (ResultBody result))
    end.

End Handlers.


(** * Definitions the statements use *)

(** The integers from [lo] to [hi]; a property of a small integer is
    checked by running it over them. *)
Definition Z_range (lo hi : Z) : list Z :=
  map (fun i => lo + Z.of_nat i) (seq 0 (Z.to_nat (hi - lo + 1))).

(** The two size tests every estimator makes: over 100000 bytes, under
    50000 bytes. *)
Definition size_band (imageSize : Z) : bool * bool :=
  (100000 <? imageSize, imageSize <? 50000).

(** [estimateThreshold] as a function of the band of the size and of the
    size's remainder modulo 60. *)
Definition threshold_of (band : bool * bool) (r : Z) : float :=
  let baseThreshold := (120.0 + GoInt.to_float64 r * 0.5)%float in
  let baseThreshold :=
    if fst band then (baseThreshold + 15.0)%float
    else if snd band then (baseThreshold - 20.0)%float
    else baseThreshold in
  let baseThreshold :=
    if (200.0 <? baseThreshold)%float then 200.0%float else baseThreshold in
  let baseThreshold :=
    if (baseThreshold <? 80.0)%float then 80.0%float else baseThreshold in
  baseThreshold.

(** No two remainders from 0 to 59 give thresholds that compare equal. *)
Definition thresholds_distinct (band : bool * bool) : bool :=
  forallb
    (fun a =>
       forallb
         (fun b => implb (threshold_of band a =? threshold_of band b)%float (a =? b))
         (Z_range 0 59))
    (Z_range 0 59).

(** The values the record gets for a parsed set [p]: the parsed value
    when the key is there with a value over zero, the estimate from the
    record's size and path otherwise. *)
Definition recorded_purity (p : Parsed) (r : AnalysisResult) : float :=
  match positive_entry (metrics p) "purity_percentage" with
  | Some purity => purity
  | None => estimatePurityFromImage (ImageSize r) (ImagePath r)
  end.

Definition recorded_count (p : Parsed) (r : AnalysisResult) : Z :=
  if 0 <? particleCount p then particleCount p
  else estimateParticleCount (ImageSize r).

Definition recorded_threshold (p : Parsed) (r : AnalysisResult) : float :=
  match positive_entry (metrics p) "threshold_value" with
  | Some threshold => threshold
  | None => estimateThreshold (ImageSize r)
  end.

Definition recorded_gypsum (p : Parsed) (r : AnalysisResult) : float :=
  match positive_entry (metrics p) "gypsum_content" with
  | Some gypsum => gypsum
  | None => recorded_purity p r
  end.

Definition recorded_impurity (p : Parsed) (r : AnalysisResult) : float :=
  match positive_entry (metrics p) "impurity_content" with
  | Some impurity => impurity
  | None => (100 - recorded_purity p r)%float
  end.

(** The coverage test of [calculateConfidence]: both areas reported
    positive and their ratio strictly between 0.1 and 0.9. *)
Definition covered (results : gmap string float) : bool :=
  (0 <? at_key results "total_area")%float && (0 <? at_key results "image_area")%float
  && (0.1 <? at_key results "total_area" / at_key results "image_area")%float
  && (at_key results "total_area" / at_key results "image_area" <? 0.9)%float.

(** A parsed set with 60 particles, 50 units covered out of 100. *)
Definition sixty_particles_half_covered : gmap string float :=
  <["total_area" := 50%float]> (<["image_area" := 100%float]> ∅).


(** ** The sentinel block, in the words of the protocol *)

(** The lines of the output, each trimmed of white space. *)
Definition trimmed_lines (output : string) : list string :=
  map GoStrings.TrimSpace (GoStrings.Split output newline).

(** The lines after the first start sentinel. *)
Fixpoint after_start (lines : list string) : list string :=
  match lines with
  | [] => []
  | line :: rest => if String.eqb line RESULTS_START then rest else after_start rest
  end.

(** The lines before the first end sentinel. *)
Fixpoint before_end (lines : list string) : list string :=
  match lines with
  | [] => []
  | line :: rest => if String.eqb line RESULTS_END then [] else line :: before_end rest
  end.

(** The span of the first sentinel pair: the lines after the first start
    sentinel, up to the end sentinel that follows it, or to the end of
    the text when none follows. *)
Definition sentinel_span (lines : list string) : list string :=
  before_end (after_start lines).

(** An end sentinel stands before any start sentinel. *)
Fixpoint end_before_start (lines : list string) : bool :=
  match lines with
  | [] => false
  | line :: rest =>
    if String.eqb line RESULTS_START then false
    else if String.eqb line RESULTS_END then true
    else end_before_start rest
  end.

(** The parsed set without the scan's flag. *)
Definition parsed_fields (p : Parsed) : gmap string float * Z :=
  (metrics p, particleCount p).

Section Protocol.

Variable ParseFloat : string -> option float.

(** What one line of the span adds to the parsed set: a line [key:value]
    sets [key] when [value] parses, as an integer for [particle_count] and
    as a float for every other key; any other line adds nothing. *)
Definition contribute (fields : gmap string float * Z) (line : string)
  : gmap string float * Z :=
  match GoStrings.Cut line ":" with
  | Some (key, value) =>
    if String.eqb key "particle_count" then
      match Strconv.Atoi value with
      | Some count => (fst fields, count)
      | None => fields
      end
    else
      match ParseFloat value with
      | Some v => (<[key := v]> (fst fields), snd fields)
      | None => fields
      end
  | None => fields
  end.

End Protocol.

(** A block that gives the purity twice, the second time unreadable. *)
Definition output_purity_twice : string :=
"ANALYSIS_RESULTS_START
purity_percentage:85.5
purity_percentage:n/a
ANALYSIS_RESULTS_END
".

(** A well-formed block after a stray end sentinel. *)
Definition output_stray_end : string :=
"ANALYSIS_RESULTS_END
ANALYSIS_RESULTS_START
purity_percentage:85.5
ANALYSIS_RESULTS_END
".

(** The block of the protocol, between two lines of log. *)
Definition output_well_formed : string :=
"Opening image
  ANALYSIS_RESULTS_START
purity_percentage:85.5
gypsum_content:85.5
impurity_content:14.5
particle_count:45
total_area:125000
image_area:150000
threshold_value:128.5
  ANALYSIS_RESULTS_END
done
".

(** ** Runs of a job *)

(** The same answers of the system, with another text captured from the
    process. *)
Definition with_output (w : World) (output : string) : World :=
  mkWorld (now w) (open_err w) (create_err w) (copy_err w) (write_macro_err w)
    output (fiji_err w).

(** The message of the error [saveUploadedFile] returns in [w]. *)
Definition save_error (w : World) : option string :=
  match open_err w, create_err w, copy_err w with
  | Some err, _, _ => Some ("failed to open uploaded file: " ++ err)%string
  | None, Some err, _ => Some ("failed to create destination file: " ++ err)%string
  | None, None, Some err => Some ("failed to copy file content: " ++ err)%string
  | None, None, None => None
  end.

(** What [updateResultWithError] makes of a record. *)
Definition failed_record (errorMsg : string) (at_time : Z) (r : AnalysisResult)
  : AnalysisResult :=
  set_CompletedAt (Some at_time) (set_Error errorMsg (set_Status StatusFailed r)).

(** What the closing critical section of [performFijiAnalysis] makes of
    a record. *)
Definition completed_record (analysisTime at_time : Z) (r : AnalysisResult)
  : AnalysisResult :=
  set_AnalysisTime analysisTime
    (set_CompletedAt (Some at_time) (set_Status StatusCompleted r)).

(** The milliseconds between the two readings around the process, for a
    job that began at reading [t0]. *)
Definition elapsed (w : World) (t0 : nat) : Z :=
  Z.quot (now w (2 + t0) - now w (1 + t0)) 1000000.

(** Where [AnalyzeGypsumImage] saves the upload. *)
Definition job_image_path (Join : string -> string -> string) (config : Config)
    (analysisID : string) (file : FileHeader) : string :=
  Join (TempDir config) (analysisID ++ Ext (Filename file))%string.

(** The messages recorded on the three ways to fail. *)
Definition save_failure_message (err : string) : string :=
  ("Failed to save uploaded file: " ++ err)%string.

Definition macro_failure_message (err : string) : string :=
  ("Analysis failed: failed to create analysis macro: " ++ err)%string.

Definition process_failure_message_1 (err : string) : string :=
  ("Fiji execution failed: " ++ err)%string.

Definition process_failure_message_2 (Errorf : string -> string) (err : string) : string :=
  ("Analysis failed: " ++ Errorf (process_failure_message_1 err))%string.

(** The parsed value when it is there and over zero, the fallback
    otherwise. *)
Definition chosen (parsed_value : option float) (fallback : float) : float :=
  match parsed_value with
  | Some v => if (0 <? v)%float then v else fallback
  | None => fallback
  end.

(** [part] occurs in [text]. *)
Definition includes (text part : string) : bool :=
  match String.index 0 part text with
  | Some _ => true
  | None => false
  end.

(** The job's record when the run is over. *)
Definition final_record (analysisID : string) (outcome : option (option string * State))
  : option AnalysisResult :=
  match outcome with
  | Some (_, st) => results st !! analysisID
  | None => None
  end.

(** The job's record at each unlock of the run, oldest first. *)
Definition job_history (analysisID : string) (st0 : State)
    (outcome : option (option string * State)) : list (option AnalysisResult) :=
  match outcome with
  | Some (_, st) =>
    map (fun m : gmap string AnalysisResult => m !! analysisID)
      (skipn (List.length (published st0)) (published st))
  | None => []
  end.

Definition terminal (s : AnalysisStatus) : bool :=
  match s with
  | StatusCompleted | StatusFailed => true
  | StatusPending | StatusProcessing => false
  end.

(** The record is stamped with a completion time exactly when its
    status is terminal. *)
Definition stamped_iff_terminal (r : AnalysisResult) : bool :=
  Bool.eqb (match CompletedAt r with Some _ => true | None => false end)
    (terminal (Status r)).

(** ** A concrete service, for the runs the statements are tried on *)

(** [fmt.Errorf] on a format that holds no [%]. *)
Definition Errorf_plain (format : string) : string := format.

(** [filepath.Join] on a clean directory and a plain file name. *)
Definition Join_plain (dir name : string) : string := (dir ++ "/" ++ name)%string.

Definition default_config : Config :=
  mkConfig "/opt/fiji/Fiji.app/ImageJ-linux64" "/tmp/gypsum-analysis" 300.

Definition empty_service : State := mkState ∅ 0 [].

(** A clock read once a second. *)
Definition clock_seconds (n : nat) : Z := Z.of_nat n * 1000000000.

Definition process_exits_ok (output : string) : World :=
  mkWorld clock_seconds None None None None output None.

Definition process_exits_1 (output : string) : World :=
  mkWorld clock_seconds None None None None output (Some "exit status 1"%string).

Definition disk_full : World :=
  mkWorld clock_seconds None None (Some "no space left on device"%string) None
    EmptyString None.

Definition upload : FileHeader := mkFileHeader "rock.png" 120000.

Definition run_concrete (w : World) : option (option string * State) :=
  AnalyzeGypsumImage Strconv.ParseFloat_decimal Errorf_plain Join_plain
    default_config w "job-1" upload empty_service.

(** What a process that fails may have printed. *)
Definition output_of_failure : string := "Exception: cannot open image".

(** A block whose impurity is no whole number. *)
Definition output_impurity_3_4 : string :=
"ANALYSIS_RESULTS_START
purity_percentage:96.6
impurity_content:3.4
particle_count:12
ANALYSIS_RESULTS_END
".

(** An output with no block at all. *)
Definition output_without_block : string :=
"Unable to init server: could not connect
headless mode
".

(** What the macro prints for an image with no particle: every value
    zero. *)
Definition parsed_zeros : Parsed :=
  mkParsed true
    (<["purity_percentage" := 0%float]> (<["threshold_value" := 0%float]> ∅)) 0.

(** Two records that share the size and the path of the upload and
    nothing else. *)
Definition record_one : AnalysisResult :=
  mkAnalysisResult "job-1" StatusProcessing 0 None EmptyString
    0%float 0%float "/tmp/gypsum-analysis/job-1.png" 40000 0
    0%float 0%float 0%float 0%float 0%float 0%float 0 0%float.

Definition record_two : AnalysisResult :=
  mkAnalysisResult "job-2" StatusPending 77 (Some 99) "stale"
    1%float 1%float "/tmp/gypsum-analysis/job-1.png" 40000 5
    2%float 3%float 4%float 5%float 6%float 7%float 8 9%float.



(** ** More words for the statements on runs, estimators and endpoints *)

(** The readings of the clock never go back. *)
Definition clock_monotone (w : World) : Prop :=
  forall a b : nat, (a <= b)%nat -> now w a <= now w b.

(** The keys [record_results] and [calculateConfidence] look up. *)
Definition known_keys : list string :=
  ["purity_percentage"; "gypsum_content"; "impurity_content";
   "threshold_value"; "total_area"; "image_area"]%string.

(** The fallback purity in whole numbers. *)
Definition purity_whole (imageSize : Z) (imagePath : string) : Z :=
  let purity := 60 + Z.rem (hashString (size_path_key imageSize imagePath)) 35 in
  let purity :=
    if 100000 <? imageSize then purity + 5
    else if imageSize <? 50000 then purity - 10
    else purity in
  Z.max 30 (Z.min 95 purity).

(** The polynomial in 31 over a list of runes. *)
Definition poly31 (runes : list Z) : Z :=
  fold_left (fun h c => 31 * h + c) runes 0.

Definition is_letter (c : ascii) : bool :=
  Utf8.within 65 90 (Utf8.byte c) || Utf8.within 97 122 (Utf8.byte c).

Definition is_lower_letter (c : ascii) : bool := Utf8.within 97 122 (Utf8.byte c).

(** A dot followed by three or four ASCII letters. *)
Definition plain_extension (ext : string) : bool :=
  match ext with
  | String c letters =>
    Ascii.eqb c "." && forallb is_letter (list_ascii_of_string letters)
    && (3 <=? String.length letters)%nat && (String.length letters <=? 4)%nat
  | EmptyString => false
  end.

(** A parsed set with two keys nobody reads. *)
Definition parsed_with_unknown_keys : Parsed :=
  mkParsed true
    (<["brightness" := 7%float]> (<["purity_percentage" := 0%float]>
       (<["threshold_value" := 0%float]> (<["circularity" := 1%float]> ∅)))) 0.

(** A service that already holds the record of another job. *)
Definition busy_service : State :=
  mkState (<["job-0" := record_two]> ∅) 10 [<["job-0" := record_two]> ∅].

Definition macro_not_written : World :=
  mkWorld clock_seconds None None None (Some "permission denied"%string)
    EmptyString None.

Definition upload_upper_case : FileHeader := mkFileHeader "Rock.Sample.TIFF" 2048.

(** [strings.Map(unicode.ToLower, s)] is not called on ASCII names. *)
Definition ToLower_runes_unused (s : string) : string := s.


(** Reading a hash key back: the longest run of digits, after a sign if
    there is one, is the size; a dash follows; the rest is the path. *)
Fixpoint read_digits (s : string) (acc : Z) : Z * string :=
  match s with
  | EmptyString => (acc, s)
  | String c r =>
    match Strconv.digit c with
    | Some d => read_digits r (10 * acc + d)
    | None => (acc, s)
    end
  end.

Definition read_key (key : string) : option (Z * string) :=
  let signed :=
    match key with
    | String c r => if Ascii.eqb c "-" then (true, r) else (false, key)
    | EmptyString => (false, key)
    end in
  match read_digits (snd signed) 0 with
  | (n, String c path) =>
    if Ascii.eqb c "-" then Some (if fst signed then - n else n, path) else None
  | (_, EmptyString) => None
  end.

(** The value of a decimal numeral read from the left. *)
Fixpoint numeral_value (d : Decimal.uint) (acc : Z) : Z :=
  match d with
  | Decimal.Nil => acc
  | Decimal.D0 l => numeral_value l (10 * acc)
  | Decimal.D1 l => numeral_value l (10 * acc + 1)
  | Decimal.D2 l => numeral_value l (10 * acc + 2)
  | Decimal.D3 l => numeral_value l (10 * acc + 3)
  | Decimal.D4 l => numeral_value l (10 * acc + 4)
  | Decimal.D5 l => numeral_value l (10 * acc + 5)
  | Decimal.D6 l => numeral_value l (10 * acc + 6)
  | Decimal.D7 l => numeral_value l (10 * acc + 7)
  | Decimal.D8 l => numeral_value l (10 * acc + 8)
  | Decimal.D9 l => numeral_value l (10 * acc + 9)
  end.

(** An identifier of the kind uuid.New().String() gives. *)
Definition some_uuid : string := "3f2b8c1e-5c1d-4e0a-9b7a-2d6f0c9e4a11".

(** * Properties *)

(** ** Small integers *)

Lemma Z_range_In (lo hi k : Z) : lo <= k <= hi -> In k (Z_range lo hi).
Proof.
  intros Hk. unfold Z_range. apply in_map_iff.
  exists (Z.to_nat (k - lo)). split; [lia|].
  apply in_seq. lia.
Qed.

Lemma Z_range_forallb (f : Z -> bool) (lo hi : Z) :
  forallb f (Z_range lo hi) = true -> forall k, lo <= k <= hi -> f k = true.
Proof.
  intros Hall k Hk. rewrite forallb_forall in Hall. apply Hall, Z_range_In, Hk.
Qed.

Lemma rem_35_bounds (h : Z) : -34 <= Z.rem h 35 <= 34.
Proof. pose proof (Z.rem_bound_abs h 35 ltac:(lia)). lia. Qed.

Lemma rem_60_bounds (h : Z) : -59 <= Z.rem h 60 <= 59.
Proof. pose proof (Z.rem_bound_abs h 60 ltac:(lia)). lia. Qed.

Lemma rem_60_nonneg (h : Z) : 0 <= h -> 0 <= Z.rem h 60 <= 59.
Proof. intros Hh. pose proof (Z.rem_bound_pos h 60 Hh ltac:(lia)). lia. Qed.

(** ** The hash and the estimators on known inputs *)

Example hash_abc : hashString "abc" = 96354.
Proof. reflexivity. Qed.

Example hash_wraps : hashString "zzzzzzzzzzzzzzzz" = -6304864471795779072.
Proof. vm_compute. reflexivity. Qed.

Example hash_of_two_byte_rune :
  hashString (String (ascii_of_nat 195) (String (ascii_of_nat 169) EmptyString)) = 233.
Proof. vm_compute. reflexivity. Qed.

Example Ext_of_names :
  Ext "rock.png" = ".png"%string /\ Ext "a.tar.gz" = ".gz"%string /\
  Ext "dir.d/rock" = EmptyString /\ Ext "rock" = EmptyString.
Proof. vm_compute. repeat split; reflexivity. Qed.

Example TrimSpace_of_lines :
  GoStrings.TrimSpace "  ANALYSIS_RESULTS_START	 " = RESULTS_START /\
  GoStrings.TrimSpace "key : value" = "key : value"%string.
Proof. vm_compute. split; reflexivity. Qed.

Example Atoi_of_texts :
  Strconv.Atoi "45" = Some 45 /\ Strconv.Atoi "-7" = Some (-7) /\
  Strconv.Atoi " 45" = None /\ Strconv.Atoi "4.5" = None /\
  Strconv.Atoi "9223372036854775808" = None.
Proof. vm_compute. repeat split; reflexivity. Qed.

Example purity_of_small_upload :
  estimatePurityFromImage 40000 "/tmp/gypsum-analysis/a.png" = 45%float.
Proof. vm_compute. reflexivity. Qed.

(** ** Bounds of the fallback estimators *)

Lemma estimatePurity_bounds (imageSize : Z) (imagePath : string) :
  (30 <=? estimatePurityFromImage imageSize imagePath)%float = true /\
  (estimatePurityFromImage imageSize imagePath <=? 95)%float = true.
Proof.
  unfold estimatePurityFromImage.
  generalize (rem_35_bounds (hashString (size_path_key imageSize imagePath))).
  generalize (Z.rem (hashString (size_path_key imageSize imagePath)) 35).
  intros k Hk. apply andb_true_iff.
  destruct (100000 <? imageSize); [| destruct (imageSize <? 50000)];
    revert k Hk; apply Z_range_forallb; vm_compute; reflexivity.
Qed.

Lemma estimateParticleCount_bounds (imageSize : Z) :
  5 <= estimateParticleCount imageSize <= 100.
Proof.
  unfold estimateParticleCount.
  repeat match goal with
         | |- context [if ?b then _ else _] => destruct b eqn:?
         end; lia.
Qed.

Lemma estimateThreshold_by_band (imageSize : Z) :
  estimateThreshold imageSize = threshold_of (size_band imageSize) (Z.rem imageSize 60).
Proof. reflexivity. Qed.

Lemma threshold_of_bounds (band : bool * bool) (r : Z) :
  -59 <= r <= 59 ->
  ((80 <=? threshold_of band r)%float && (threshold_of band r <=? 200)%float) = true.
Proof.
  destruct band as [[|] [|]]; revert r; apply Z_range_forallb; vm_compute; reflexivity.
Qed.

(** Within a band and for remainders of a size that is not negative, two
    thresholds that are equal come from the same remainder. *)
Lemma threshold_of_injective (band : bool * bool) (r1 r2 : Z) :
  0 <= r1 <= 59 -> 0 <= r2 <= 59 ->
  threshold_of band r1 = threshold_of band r2 -> r1 = r2.
Proof.
  intros H1 H2 Heq.
  assert (Hrefl : forall r, 0 <= r <= 59 ->
            (threshold_of band r =? threshold_of band r)%float = true).
  { destruct band as [[|] [|]]; apply Z_range_forallb; vm_compute; reflexivity. }
  specialize (Hrefl r2 H2). rewrite <- Heq in Hrefl at 1.
  assert (Hall : thresholds_distinct band = true).
  { destruct band as [[|] [|]]; vm_compute; reflexivity. }
  unfold thresholds_distinct in Hall.
  rewrite forallb_forall in Hall.
  specialize (Hall r1 (Z_range_In 0 59 r1 H1)).
  rewrite forallb_forall in Hall.
  specialize (Hall r2 (Z_range_In 0 59 r2 H2)).
  rewrite Hrefl in Hall. simpl in Hall. lia.
Qed.

(** C6.  For every artifact size and path the fallback purity lies in
    [30, 95], the fallback particle count in [5, 100] and the fallback
    threshold in [80, 200]; the threshold is a function of the size's band
    and of the size modulo 60, and within a band two sizes that are not
    negative get the same threshold exactly when they agree modulo 60. *)
Theorem fallback_estimates_bounded (imageSize : Z) (imagePath : string) :
  ((30 <=? estimatePurityFromImage imageSize imagePath)%float = true /\
   (estimatePurityFromImage imageSize imagePath <=? 95)%float = true) /\
  5 <= estimateParticleCount imageSize <= 100 /\
  ((80 <=? estimateThreshold imageSize)%float = true /\
   (estimateThreshold imageSize <=? 200)%float = true) /\
  (forall other : Z,
      size_band other = size_band imageSize ->
      Z.rem other 60 = Z.rem imageSize 60 ->
      estimateThreshold other = estimateThreshold imageSize) /\
  (forall other : Z,
      0 <= imageSize -> 0 <= other ->
      size_band other = size_band imageSize ->
      estimateThreshold other = estimateThreshold imageSize ->
      Z.rem other 60 = Z.rem imageSize 60).
Proof.
  split; [apply estimatePurity_bounds|].
  split; [apply estimateParticleCount_bounds|].
  split.
  - apply andb_true_iff. rewrite estimateThreshold_by_band.
    apply threshold_of_bounds, rem_60_bounds.
  - split.
    + intros other Hband Hrem. rewrite !estimateThreshold_by_band.
      now rewrite Hband, Hrem.
    + intros other Hsize Hother Hband Heq.
      rewrite !estimateThreshold_by_band, Hband in Heq.
      eapply threshold_of_injective; [| | exact Heq]; now apply rem_60_nonneg.
Qed.

(** ** Confidence *)

Lemma covered_spec (results : gmap string float) :
  covered results =
  ((0 <? at_key results "total_area")%float && (0 <? at_key results "image_area")%float)
  && ((0.1 <? at_key results "total_area" / at_key results "image_area")%float
      && (at_key results "total_area" / at_key results "image_area" <? 0.9)%float).
Proof. unfold covered. now rewrite <- !andb_assoc. Qed.

(** The six values the score can take. *)
Lemma calculateConfidence_values (results : gmap string float) (particleCount : Z) :
  calculateConfidence results particleCount =
  match 10 <? particleCount, 50 <? particleCount, covered results with
  | false, false, false => 0.5%float
  | false, false, true => 0.6%float
  | true, false, false => 0.7%float
  | true, false, true => 0x1.9999999999999p-1%float
  | _, true, false => 0x1.cccccccccccccp-1%float
  | _, true, true => 0x1.fffffffffffffp-1%float
  end.
Proof.
  rewrite covered_spec. unfold calculateConfidence.
  destruct (50 <? particleCount) eqn:H50; destruct (10 <? particleCount) eqn:H10;
    try lia;
    destruct ((0 <? at_key results "total_area")%float
              && (0 <? at_key results "image_area")%float);
    cbn [andb];
    try destruct ((0.1 <? at_key results "total_area" / at_key results "image_area")%float
                  && (at_key results "total_area" / at_key results "image_area" <? 0.9)%float);
    vm_compute; reflexivity.
Qed.

Lemma calculateConfidence_bounds (results : gmap string float) (particleCount : Z) :
  (0.5 <=? calculateConfidence results particleCount)%float = true /\
  (calculateConfidence results particleCount <=? 1.0)%float = true.
Proof.
  rewrite calculateConfidence_values.
  destruct (10 <? particleCount), (50 <? particleCount), (covered results);
    vm_compute; split; reflexivity.
Qed.

(** C4, as the code has it.  The score is 0.5, plus 0.2 when the particle
    count is over 10, plus 0.2 more when it is over 50, plus 0.1 when both
    areas are reported positive and their ratio is strictly between 0.1
    and 0.9, each sum taken in binary64; it lies in [0, 1], so the clamp
    never changes it; and with more than 50 particles and such a coverage
    it is 0.9999999999999999, the binary64 value just below 1.0. *)
Theorem confidence_score (results : gmap string float) (particleCount : Z) :
  let base := 0.5%float in
  let over10 := if 10 <? particleCount then (base + 0.2)%float else base in
  let over50 := if 50 <? particleCount then (over10 + 0.2)%float else over10 in
  let score := if covered results then (over50 + 0.1)%float else over50 in
  calculateConfidence results particleCount = score /\
  ((0 <=? score)%float = true /\ (score <=? 1)%float = true) /\
  (50 < particleCount -> covered results = true ->
   score = 0x1.fffffffffffffp-1%float /\ (score <? 1)%float = true).
Proof.
  cbv zeta. rewrite calculateConfidence_values.
  destruct (10 <? particleCount) eqn:H10, (50 <? particleCount) eqn:H50,
    (covered results);
    try (exfalso; lia);
    (split; [vm_compute; reflexivity|]);
    (split; [vm_compute; split; reflexivity|]);
    intros Hmany Hcov; try discriminate; try lia;
    vm_compute; split; reflexivity.
Qed.

(** C4, as the claim has it: 60 particles and a coverage of 0.5 do not
    score 1.0. *)
Lemma confidence_sixty_half_covered :
  (at_key sixty_particles_half_covered "total_area"
   / at_key sixty_particles_half_covered "image_area")%float = 0.5%float /\
  calculateConfidence sixty_particles_half_covered 60 = 0x1.fffffffffffffp-1%float /\
  (calculateConfidence sixty_particles_half_covered 60 =? 1.0)%float = false.
Proof. vm_compute. repeat split; reflexivity. Qed.

(** ** What [record_results] writes *)

Lemma record_results_fields (p : Parsed) (t : Z) (r : AnalysisResult) :
  record_results p t r =
  mkAnalysisResult (ID r) (Status r) (CreatedAt r) (CompletedAt r) (Error r)
    (recorded_purity p r) (calculateConfidence (metrics p) (particleCount p))
    (ImagePath r) (ImageSize r) t
    (recorded_gypsum p r) (recorded_impurity p r)
    (recorded_impurity p r * 0.3)%float (recorded_impurity p r * 0.2)%float
    (recorded_impurity p r * 0.5)%float
    (recorded_threshold p r) (recorded_count p r) (AverageParticleSize r).
Proof.
  unfold record_results, recorded_purity, recorded_gypsum, recorded_impurity,
    recorded_threshold, recorded_count, recorded_purity.
  destruct (positive_entry (metrics p) "purity_percentage"),
    (positive_entry (metrics p) "gypsum_content"),
    (positive_entry (metrics p) "impurity_content"),
    (0 <? particleCount p),
    (positive_entry (metrics p) "threshold_value"); reflexivity.
Qed.


(** ** The scan of the output *)

Lemma Cut_Contains (s : string) (sep : ascii) :
  GoStrings.Contains s sep = match GoStrings.Cut s sep with Some _ => true | None => false end.
Proof.
  induction s as [|c r IH]; simpl; [reflexivity|].
  destruct (Ascii.eqb c sep); simpl; [reflexivity|].
  rewrite IH. destruct (GoStrings.Cut r sep) as [[before after]|]; reflexivity.
Qed.

Lemma SplitN_2 (s : string) (sep : ascii) :
  GoStrings.SplitN s sep 2 =
  match GoStrings.Cut s sep with
  | Some (before, after) => [before; after]
  | None => [s]
  end.
Proof.
  simpl. destruct (GoStrings.Cut s sep) as [[before after]|]; reflexivity.
Qed.

Section Scan.

Variable ParseFloat : string -> option float.

Lemma parse_line_outside (line : string) (st : Parsed) :
  inResults st = false -> parse_line ParseFloat line st = st.
Proof. intros Hout. unfold parse_line. now rewrite Hout. Qed.

Lemma parse_line_inside (line : string) (st : Parsed) :
  inResults st = true ->
  inResults (parse_line ParseFloat line st) = true /\
  parsed_fields (parse_line ParseFloat line st)
  = contribute ParseFloat (parsed_fields st) line.
Proof.
  intros Hin. unfold parse_line, contribute. rewrite Hin, Cut_Contains, SplitN_2.
  destruct (GoStrings.Cut line ":") as [[key value]|]; simpl; [|now split].
  destruct (String.eqb key "particle_count").
  - destruct (Strconv.Atoi value); now split.
  - destruct (ParseFloat value); now split.
Qed.

Lemma contribute_sentinel (fields : gmap string float * Z) :
  contribute ParseFloat fields RESULTS_START = fields.
Proof. reflexivity. Qed.

(** Once inside the block, the scan adds line after line up to the end
    sentinel. *)
Lemma scan_inside (lines : list string) (st : Parsed) :
  inResults st = true ->
  parsed_fields (scan_lines ParseFloat lines st)
  = fold_left (contribute ParseFloat)
      (before_end (map GoStrings.TrimSpace lines)) (parsed_fields st).
Proof.
  revert st. induction lines as [|line rest IH]; intros st Hin; simpl; [reflexivity|].
  destruct (String.eqb (GoStrings.TrimSpace line) RESULTS_START) eqn:Hstart.
  - apply String.eqb_eq in Hstart. rewrite Hstart. simpl.
    rewrite contribute_sentinel. now rewrite IH.
  - destruct (String.eqb (GoStrings.TrimSpace line) RESULTS_END); simpl; [reflexivity|].
    destruct (parse_line_inside (GoStrings.TrimSpace line) st Hin) as [Hin' Hfields].
    now rewrite IH, Hfields.
Qed.

(** Before the block, the scan looks for the start sentinel. *)
Lemma scan_outside (lines : list string) (st : Parsed) :
  inResults st = false ->
  end_before_start (map GoStrings.TrimSpace lines) = false ->
  parsed_fields (scan_lines ParseFloat lines st)
  = fold_left (contribute ParseFloat)
      (sentinel_span (map GoStrings.TrimSpace lines)) (parsed_fields st).
Proof.
  revert st. induction lines as [|line rest IH]; intros st Hout Hend; simpl; [reflexivity|].
  simpl in Hend. unfold sentinel_span. simpl.
  destruct (String.eqb (GoStrings.TrimSpace line) RESULTS_START).
  - now rewrite scan_inside.
  - destruct (String.eqb (GoStrings.TrimSpace line) RESULTS_END); [discriminate|].
    rewrite parse_line_outside by exact Hout. now apply IH.
Qed.

(** Without a start sentinel the scan gathers nothing. *)
Lemma scan_without_start (lines : list string) (st : Parsed) :
  inResults st = false ->
  ~ In RESULTS_START (map GoStrings.TrimSpace lines) ->
  scan_lines ParseFloat lines st = st.
Proof.
  revert st. induction lines as [|line rest IH]; intros st Hout Hno; simpl; [reflexivity|].
  destruct (String.eqb (GoStrings.TrimSpace line) RESULTS_START) eqn:Hstart.
  - apply String.eqb_eq in Hstart. exfalso. apply Hno. left. exact Hstart.
  - destruct (String.eqb (GoStrings.TrimSpace line) RESULTS_END); [reflexivity|].
    rewrite parse_line_outside by exact Hout.
    apply IH; [exact Hout|]. intros Hin. apply Hno. now right.
Qed.

Lemma parse_output_without_start (output : string) :
  ~ In RESULTS_START (trimmed_lines output) ->
  parse_output ParseFloat output = nothing_parsed.
Proof. intros Hno. now apply scan_without_start. Qed.

(** C2, as the code has it.  For every output in which no end sentinel
    stands before the first start sentinel, the parsed set is what the
    lines of the first sentinel span add, one after the other, to the
    empty set: the span runs from the first line that trims to
    ANALYSIS_RESULTS_START to the next line that trims to
    ANALYSIS_RESULTS_END, or to the end of the text; a line key:value
    whose value parses (as an integer for particle_count, as a float
    otherwise) sets that key, a later line replacing an earlier one; a
    line whose value does not parse leaves the set as it was. *)
Theorem parse_output_is_span (output : string) :
  end_before_start (trimmed_lines output) = false ->
  parsed_fields (parse_output ParseFloat output)
  = fold_left (contribute ParseFloat) (sentinel_span (trimmed_lines output)) (∅, 0).
Proof. intros Hend. now apply scan_outside. Qed.

(** Whatever the output, the scan reads the lines that stand before the
    first end sentinel, and among them those after the first start
    sentinel. *)
Theorem parse_output_stops_at_end (output : string) :
  parsed_fields (parse_output ParseFloat output)
  = fold_left (contribute ParseFloat)
      (after_start (before_end (trimmed_lines output))) (∅, 0).
Proof.
  unfold parse_output, trimmed_lines.
  change (∅, 0) with (parsed_fields nothing_parsed).
  assert (Hout : inResults nothing_parsed = false) by reflexivity.
  revert Hout. generalize nothing_parsed.
  induction (GoStrings.Split output newline) as [|line rest IH];
    intros st Hout; simpl; [reflexivity|].
  destruct (String.eqb (GoStrings.TrimSpace line) RESULTS_START) eqn:Hstart.
  - apply String.eqb_eq in Hstart. rewrite Hstart. simpl.
    now rewrite scan_inside.
  - destruct (String.eqb (GoStrings.TrimSpace line) RESULTS_END); simpl; [reflexivity|].
    rewrite Hstart, parse_line_outside by exact Hout. now apply IH.
Qed.

End Scan.

(** C2, as the claim has it: in [output_purity_twice] the line
    [purity_percentage:n/a] lies in the span and its value does not
    parse, yet the key is in the parsed set, with the earlier value. *)
Lemma unparsed_line_keeps_key :
  In "purity_percentage:n/a"%string (sentinel_span (trimmed_lines output_purity_twice)) /\
  Strconv.ParseFloat_decimal "n/a" = None /\
  metrics (parse_output Strconv.ParseFloat_decimal output_purity_twice)
    !! "purity_percentage"%string = Some 85.5%float.
Proof. vm_compute. split; [|split]; auto. Qed.

(** C2 on the block of the protocol. *)
Lemma parse_output_is_span_well_formed :
  end_before_start (trimmed_lines output_well_formed) = false /\
  parsed_fields (parse_output Strconv.ParseFloat_decimal output_well_formed)
  = fold_left (contribute Strconv.ParseFloat_decimal)
      (sentinel_span (trimmed_lines output_well_formed)) (∅, 0).
Proof.
  split; [reflexivity|].
  apply (parse_output_is_span Strconv.ParseFloat_decimal output_well_formed).
  reflexivity.
Defined.

(** A stray end sentinel ends the scan before the block is seen. *)
Example stray_end_stops_scan :
  parse_output Strconv.ParseFloat_decimal output_stray_end = nothing_parsed /\
  sentinel_span (trimmed_lines output_stray_end) = ["purity_percentage:85.5"%string].
Proof. vm_compute. split; reflexivity. Qed.

Example well_formed_block_parsed :
  let p := parse_output Strconv.ParseFloat_decimal output_well_formed in
  metrics p !! "purity_percentage"%string = Some 85.5%float /\
  metrics p !! "total_area"%string = Some 125000%float /\
  metrics p !! "particle_count"%string = None /\
  particleCount p = 45.
Proof. vm_compute. repeat split; reflexivity. Qed.

(** ** One run of [AnalyzeGypsumImage], path by path *)

Section Runs.

Variable ParseFloat : string -> option float.
Variable Errorf : string -> string.
Variable Join : string -> string -> string.
Variable config : Config.
Variable world : World.
Variable analysisID : string.
Variable file : FileHeader.
Variable st0 : State.

Local Abbreviation run :=
  (AnalyzeGypsumImage ParseFloat Errorf Join config world analysisID file st0).
Local Abbreviation imagePath := (job_image_path Join config analysisID file).
Local Abbreviation created := (new_result analysisID (now world (ticks st0)) file).
Local Abbreviation saved := (set_ImagePath imagePath created).
Local Abbreviation snapshot r := (<[analysisID := r]> (results st0)).
Local Abbreviation parsed := (parse_output ParseFloat (fiji_output world)).
Local Abbreviation filled := (record_results parsed (elapsed world (ticks st0)) saved).

Ltac run_step :=
  cbv beta delta [AnalyzeGypsumImage performFijiAnalysis parseFijiResults
    updateResultWithError saveUploadedFile createGypsumAnalysisMacro
    bind ret locked store update lookup_result time_Now] iota zeta;
  cbn [results ticks published];
  rewrite ?lookup_insert_eq, ?insert_insert_eq.

Ltac run_done :=
  repeat run_step;
  unfold job_image_path, failed_record, completed_record, elapsed,
    save_failure_message, macro_failure_message, process_failure_message_2,
    process_failure_message_1;
  rewrite <- ?app_assoc; reflexivity.

Ltac run_start :=
  unfold AnalyzeGypsumImage;
  cbv beta delta [bind time_Now locked store] iota zeta;
  cbn [results ticks published].

Lemma saveUploadedFile_result (destPath : string) (st : State) :
  saveUploadedFile world file destPath st = Some (save_error world, st).
Proof.
  unfold saveUploadedFile, save_error.
  destruct (open_err world), (create_err world), (copy_err world); reflexivity.
Qed.

Lemma run_save_failed (err : string) :
  save_error world = Some err ->
  run = Some (Some (Errorf (save_failure_message err)),
              mkState
                (snapshot (failed_record (save_failure_message err)
                             (now world (1 + ticks st0)) created))
                (2 + ticks st0)
                (published st0
                 ++ [snapshot created;
                     snapshot (failed_record (save_failure_message err)
                                 (now world (1 + ticks st0)) created)])).
Proof.
  intros Hsave. run_start. rewrite saveUploadedFile_result, Hsave. run_done.
Qed.

Lemma run_macro_failed (err : string) :
  save_error world = None -> write_macro_err world = Some err ->
  run = Some (Some (Errorf (macro_failure_message err)),
              mkState
                (snapshot (failed_record (macro_failure_message err)
                             (now world (2 + ticks st0)) saved))
                (3 + ticks st0)
                (published st0
                 ++ [snapshot created; snapshot saved;
                     snapshot (failed_record (macro_failure_message err)
                                 (now world (2 + ticks st0)) saved)])).
Proof.
  intros Hsave Hmacro. run_start. rewrite saveUploadedFile_result, Hsave.
  unfold performFijiAnalysis, createGypsumAnalysisMacro. rewrite Hmacro.
  run_done.
Qed.

(** A failed process is recorded twice: by [performFijiAnalysis], then by
    its caller on the error that comes back. *)
Lemma run_process_failed (err : string) :
  save_error world = None -> write_macro_err world = None ->
  fiji_err world = Some err ->
  run = Some (Some (Errorf (process_failure_message_2 Errorf err)),
              mkState
                (snapshot
                   (failed_record (process_failure_message_2 Errorf err)
                      (now world (4 + ticks st0))
                      (failed_record (process_failure_message_1 err)
                         (now world (3 + ticks st0)) saved)))
                (5 + ticks st0)
                (published st0
                 ++ [snapshot created; snapshot saved;
                     snapshot (failed_record (process_failure_message_1 err)
                                 (now world (3 + ticks st0)) saved);
                     snapshot
                       (failed_record (process_failure_message_2 Errorf err)
                          (now world (4 + ticks st0))
                          (failed_record (process_failure_message_1 err)
                             (now world (3 + ticks st0)) saved))])).
Proof.
  intros Hsave Hmacro Hfiji. run_start. rewrite saveUploadedFile_result, Hsave.
  unfold performFijiAnalysis, createGypsumAnalysisMacro. rewrite Hmacro, Hfiji.
  run_done.
Qed.

Lemma run_succeeded :
  save_error world = None -> write_macro_err world = None ->
  fiji_err world = None ->
  run = Some (None,
              mkState
                (snapshot (completed_record (elapsed world (ticks st0))
                             (now world (3 + ticks st0)) filled))
                (4 + ticks st0)
                (published st0
                 ++ [snapshot created; snapshot saved; snapshot filled;
                     snapshot (completed_record (elapsed world (ticks st0))
                                 (now world (3 + ticks st0)) filled)])).
Proof.
  intros Hsave Hmacro Hfiji. run_start. rewrite saveUploadedFile_result, Hsave.
  unfold performFijiAnalysis, createGypsumAnalysisMacro. rewrite Hmacro, Hfiji.
  run_done.
Qed.

(** A run never panics: the record it writes through is the one it
    stored first. *)
Theorem run_returns :
  exists err st,
    AnalyzeGypsumImage ParseFloat Errorf Join config world analysisID file st0
    = Some (err, st).
Proof.
  destruct (save_error world) as [e|] eqn:Hsave.
  { rewrite (run_save_failed e Hsave). eauto. }
  destruct (write_macro_err world) as [e|] eqn:Hmacro.
  { rewrite (run_macro_failed e Hsave Hmacro). eauto. }
  destruct (fiji_err world) as [e|] eqn:Hfiji.
  { rewrite (run_process_failed e Hsave Hmacro Hfiji). eauto. }
  rewrite (run_succeeded Hsave Hmacro Hfiji). eauto.
Qed.

(** The job ends completed or failed, and completed only when nothing
    failed; its record is then the filled one, marked completed. *)
Lemma run_final_record :
  exists r, final_record analysisID run = Some r /\
    (Status r = StatusFailed \/
     (Status r = StatusCompleted /\
      save_error world = None /\ write_macro_err world = None /\
      fiji_err world = None /\
      r = completed_record (elapsed world (ticks st0))
            (now world (3 + ticks st0)) filled)).
Proof.
  destruct (save_error world) as [e|] eqn:Hsave.
  { rewrite (run_save_failed e Hsave). simpl. rewrite lookup_insert_eq. eauto. }
  destruct (write_macro_err world) as [e|] eqn:Hmacro.
  { rewrite (run_macro_failed e Hsave Hmacro). simpl. rewrite lookup_insert_eq. eauto. }
  destruct (fiji_err world) as [e|] eqn:Hfiji.
  { rewrite (run_process_failed e Hsave Hmacro Hfiji). simpl.
    rewrite lookup_insert_eq. eauto. }
  rewrite (run_succeeded Hsave Hmacro Hfiji). simpl. rewrite lookup_insert_eq.
  eexists. split; [reflexivity|]. right. repeat split; reflexivity.
Qed.

Lemma completed_job (r : AnalysisResult) :
  final_record analysisID run = Some r -> Status r = StatusCompleted ->
  save_error world = None /\ write_macro_err world = None /\
  fiji_err world = None /\
  r = completed_record (elapsed world (ticks st0)) (now world (3 + ticks st0)) filled.
Proof.
  intros Hfinal Hstatus.
  destruct run_final_record as [r' [Hr' [Hfailed|Hdone]]];
    rewrite Hfinal in Hr'; injection Hr' as <-.
  - congruence.
  - tauto.
Qed.

End Runs.

(** ** Fallback values of whole-number impurity *)

Lemma chosen_positive_entry (results : gmap string float) (key : string) (fallback : float) :
  match positive_entry results key with Some v => v | None => fallback end
  = chosen (results !! key) fallback.
Proof.
  unfold positive_entry, chosen. destruct (results !! key) as [v|]; [|reflexivity].
  destruct (0 <? v)%float; reflexivity.
Qed.

(** The impurity that goes with a fallback purity is a whole number, and
    its three shares add up to it without rounding. *)
Lemma fallback_impurity_shares (imageSize : Z) (imagePath : string) :
  let impurity := (100 - estimatePurityFromImage imageSize imagePath)%float in
  (impurity * 0.3 + impurity * 0.2 + impurity * 0.5)%float = impurity.
Proof.
  unfold estimatePurityFromImage.
  generalize (rem_35_bounds (hashString (size_path_key imageSize imagePath))).
  generalize (Z.rem (hashString (size_path_key imageSize imagePath)) 35).
  intros k Hk. apply Z_range_In in Hk.
  destruct (100000 <? imageSize); [| destruct (imageSize <? 50000)];
    vm_compute in Hk;
    repeat (destruct Hk as [<- | Hk]; [vm_compute; reflexivity|]);
    contradiction.
Qed.

(** ** Jobs *)

Section Jobs.

Variable ParseFloat : string -> option float.
Variable Errorf : string -> string.
Variable Join : string -> string -> string.
Variable config : Config.
Variable world : World.
Variable analysisID : string.
Variable file : FileHeader.
Variable st0 : State.

Local Abbreviation run :=
  (AnalyzeGypsumImage ParseFloat Errorf Join config world analysisID file st0).
Local Abbreviation imagePath := (job_image_path Join config analysisID file).
Local Abbreviation parsed := (parse_output ParseFloat (fiji_output world)).

(** C1, as the code has it.  When the process fails (a non-zero exit or
    the deadline) after the upload was saved and the macro written, the
    run returns an error and leaves the job Failed, completed at the
    reading taken last; the recorded detail is "Analysis failed: "
    followed by the message of the error made from "Fiji execution
    failed: " and the message of the process's error.  The text captured
    from the process has no part in it: with any other captured text the
    run ends in the same state. *)
Theorem process_failure_recorded (err : string) :
  save_error world = None -> write_macro_err world = None ->
  fiji_err world = Some err ->
  (exists st r,
      run = Some (Some (Errorf (process_failure_message_2 Errorf err)), st) /\
      results st !! analysisID = Some r /\
      Status r = StatusFailed /\
      Error r = ("Analysis failed: " ++ Errorf ("Fiji execution failed: " ++ err))%string /\
      CompletedAt r = Some (now world (4 + ticks st0))) /\
  (forall output : string,
      AnalyzeGypsumImage ParseFloat Errorf Join config (with_output world output)
        analysisID file st0 = run).
Proof.
  intros Hsave Hmacro Hfiji. split.
  - rewrite (run_process_failed ParseFloat Errorf Join config world analysisID file st0
               err Hsave Hmacro Hfiji).
    eexists. eexists. split; [reflexivity|]. cbn [results].
    rewrite lookup_insert_eq. repeat split; reflexivity.
  - intros output.
    rewrite (run_process_failed ParseFloat Errorf Join config world analysisID file st0
               err Hsave Hmacro Hfiji).
    now rewrite (run_process_failed ParseFloat Errorf Join config
                   (with_output world output) analysisID file st0 err Hsave Hmacro Hfiji).
Qed.

(** C3.  When the output holds no line that trims to
    ANALYSIS_RESULTS_START, nothing is parsed; the process having exited
    without error (the upload saved, the macro written), the run returns
    no error and leaves the job Completed, with no error text, the
    fallback purity, particle count and threshold of the upload's size
    and path, and the base confidence. *)
Theorem no_start_line_completes :
  ~ In RESULTS_START (trimmed_lines (fiji_output world)) ->
  save_error world = None -> write_macro_err world = None ->
  fiji_err world = None ->
  parsed = nothing_parsed /\
  exists st r,
    run = Some (None, st) /\
    results st !! analysisID = Some r /\
    Status r = StatusCompleted /\
    Error r = EmptyString /\
    PurityPercentage r = estimatePurityFromImage (Size file) imagePath /\
    ParticleCount r = estimateParticleCount (Size file) /\
    ThresholdValue r = estimateThreshold (Size file) /\
    Confidence r = 0.5%float.
Proof.
  intros Hno Hsave Hmacro Hfiji.
  pose proof (parse_output_without_start ParseFloat _ Hno) as Hparsed.
  split; [exact Hparsed|].
  rewrite (run_succeeded ParseFloat Errorf Join config world analysisID file st0
             Hsave Hmacro Hfiji).
  eexists. eexists. split; [reflexivity|]. cbn [results].
  rewrite lookup_insert_eq. split; [reflexivity|].
  rewrite Hparsed. repeat split; reflexivity.
Qed.

(** C5.  In the record of a job that ended Completed, the purity is the
    parsed purity_percentage when that key was parsed with a value over
    zero and the purity estimated from the record's size and path
    otherwise; the particle count is the parsed count when over zero and
    the estimate from the size otherwise; the threshold is the parsed
    threshold_value when parsed over zero and the estimate from the size
    otherwise.  The size and the path are those of the upload. *)
Theorem completed_job_metrics (r : AnalysisResult) :
  final_record analysisID run = Some r -> Status r = StatusCompleted ->
  (ImageSize r = Size file /\ ImagePath r = imagePath) /\
  PurityPercentage r
  = chosen (metrics parsed !! "purity_percentage")
      (estimatePurityFromImage (ImageSize r) (ImagePath r)) /\
  ParticleCount r
  = (if 0 <? particleCount parsed then particleCount parsed
     else estimateParticleCount (ImageSize r)) /\
  ThresholdValue r
  = chosen (metrics parsed !! "threshold_value") (estimateThreshold (ImageSize r)).
Proof.
  intros Hfinal Hstatus.
  destruct (completed_job ParseFloat Errorf Join config world analysisID file st0
              r Hfinal Hstatus) as (_ & _ & _ & ->).
  rewrite record_results_fields. unfold completed_record. cbn.
  unfold recorded_purity, recorded_count, recorded_threshold.
  rewrite !chosen_positive_entry. cbn. repeat split; reflexivity.
Qed.

(** C9.  In the record of a job that ended Completed the confidence is
    at least 0.5 and at most 1.0. *)
Theorem completed_job_confidence (r : AnalysisResult) :
  final_record analysisID run = Some r -> Status r = StatusCompleted ->
  (0.5 <=? Confidence r)%float = true /\ (Confidence r <=? 1.0)%float = true.
Proof.
  intros Hfinal Hstatus.
  destruct (completed_job ParseFloat Errorf Join config world analysisID file st0
              r Hfinal Hstatus) as (_ & _ & _ & ->).
  rewrite record_results_fields. unfold completed_record. cbn [Confidence set_AnalysisTime set_CompletedAt set_Status].
  apply calculateConfidence_bounds.
Qed.

(** C10, as the code has it.  In the record of a job that ended
    Completed, calcite, quartz and the other minerals are the impurity
    times 0.3, 0.2 and 0.5, each product taken in binary64; when neither
    the purity nor the impurity was parsed with a value over zero, so that
    the impurity is 100 less the fallback purity, the binary64 sum of the
    three, taken in that order, is the impurity. *)
Theorem completed_job_minerals (r : AnalysisResult) :
  final_record analysisID run = Some r -> Status r = StatusCompleted ->
  (CalciteContent r = (ImpurityContent r * 0.3)%float /\
   QuartzContent r = (ImpurityContent r * 0.2)%float /\
   OtherMinerals r = (ImpurityContent r * 0.5)%float) /\
  (positive_entry (metrics parsed) "purity_percentage" = None ->
   positive_entry (metrics parsed) "impurity_content" = None ->
   (CalciteContent r + QuartzContent r + OtherMinerals r)%float = ImpurityContent r).
Proof.
  intros Hfinal Hstatus.
  destruct (completed_job ParseFloat Errorf Join config world analysisID file st0
              r Hfinal Hstatus) as (_ & _ & _ & ->).
  rewrite record_results_fields. unfold completed_record.
  cbn [CalciteContent QuartzContent OtherMinerals ImpurityContent
         set_AnalysisTime set_CompletedAt set_Status].
  split; [repeat split; reflexivity|].
  intros Hpurity Himpurity.
  unfold recorded_impurity, recorded_purity. rewrite Hpurity, Himpurity.
  apply fallback_impurity_shares.
Qed.

End Jobs.

(** ** The statements on concrete runs *)

(** C1 on a process that exits with status 1. *)
Lemma process_failure_recorded_exit_1 :
  exists st r,
    run_concrete (process_exits_1 output_of_failure)
    = Some (Some "Analysis failed: Fiji execution failed: exit status 1"%string, st) /\
    results st !! "job-1"%string = Some r /\
    Status r = StatusFailed /\
    Error r = "Analysis failed: Fiji execution failed: exit status 1"%string /\
    CompletedAt r = Some 4000000000.
Proof.
  exact (proj1 (process_failure_recorded Strconv.ParseFloat_decimal Errorf_plain
                  Join_plain default_config (process_exits_1 output_of_failure)
                  "job-1" upload empty_service "exit status 1"
                  eq_refl eq_refl eq_refl)).
Defined.

(** C1, as the claim has it: the process printed [output_of_failure] and
    exited with status 1; the job is Failed and the recorded detail does
    not hold what the process printed. *)
Lemma process_output_not_in_error :
  fiji_output (process_exits_1 output_of_failure) = output_of_failure /\
  option_map Status
    (final_record "job-1" (run_concrete (process_exits_1 output_of_failure)))
  = Some StatusFailed /\
  option_map Error
    (final_record "job-1" (run_concrete (process_exits_1 output_of_failure)))
  = Some "Analysis failed: Fiji execution failed: exit status 1"%string /\
  option_map (fun r => includes (Error r) output_of_failure)
    (final_record "job-1" (run_concrete (process_exits_1 output_of_failure)))
  = Some false.
Proof. vm_compute. repeat split; reflexivity. Qed.

(** C3 on an output that holds no block. *)
Lemma no_start_line_completes_garbage :
  parse_output Strconv.ParseFloat_decimal output_without_block = nothing_parsed /\
  exists st r,
    run_concrete (process_exits_ok output_without_block) = Some (None, st) /\
    results st !! "job-1"%string = Some r /\
    Status r = StatusCompleted /\
    Error r = EmptyString /\
    PurityPercentage r = estimatePurityFromImage 120000 "/tmp/gypsum-analysis/job-1.png" /\
    ParticleCount r = estimateParticleCount 120000 /\
    ThresholdValue r = estimateThreshold 120000 /\
    Confidence r = 0.5%float.
Proof.
  apply (no_start_line_completes Strconv.ParseFloat_decimal Errorf_plain Join_plain
           default_config (process_exits_ok output_without_block) "job-1" upload
           empty_service).
  - vm_compute. intros [H|[H|[H|H]]]; try discriminate H; exact H.
  - reflexivity.
  - reflexivity.
  - reflexivity.
Defined.

(** C5 on the block of the protocol. *)
Lemma completed_job_metrics_well_formed :
  exists r,
    final_record "job-1" (run_concrete (process_exits_ok output_well_formed)) = Some r /\
    Status r = StatusCompleted /\
    ImageSize r = 120000 /\
    PurityPercentage r = 85.5%float /\
    ParticleCount r = 45 /\
    ThresholdValue r = 128.5%float.
Proof.
  eexists. split; [vm_compute; reflexivity|]. split; [reflexivity|].
  match goal with
  | |- ImageSize ?r = _ /\ _ =>
    pose proof (completed_job_metrics Strconv.ParseFloat_decimal Errorf_plain
                  Join_plain default_config (process_exits_ok output_well_formed)
                  "job-1" upload empty_service r) as H
  end.
  specialize (H ltac:(vm_compute; reflexivity) eq_refl).
  vm_compute in H. destruct H as ([Hsize _] & Hpurity & Hcount & Hthreshold).
  repeat split; assumption.
Defined.

(** C9 on the block of the protocol. *)
Lemma completed_job_confidence_well_formed :
  exists r,
    final_record "job-1" (run_concrete (process_exits_ok output_well_formed)) = Some r /\
    Status r = StatusCompleted /\
    (0.5 <=? Confidence r)%float = true /\ (Confidence r <=? 1.0)%float = true.
Proof.
  eexists. split; [vm_compute; reflexivity|]. split; [reflexivity|].
  apply (completed_job_confidence Strconv.ParseFloat_decimal Errorf_plain
           Join_plain default_config (process_exits_ok output_well_formed)
           "job-1" upload empty_service);
    [vm_compute; reflexivity | reflexivity].
Defined.

(** C10 on an output that holds no block: every value is a fallback. *)
Lemma completed_job_minerals_without_block :
  exists r,
    final_record "job-1" (run_concrete (process_exits_ok output_without_block)) = Some r /\
    Status r = StatusCompleted /\
    ImpurityContent r = 5%float /\
    CalciteContent r = (5 * 0.3)%float /\
    QuartzContent r = (5 * 0.2)%float /\
    OtherMinerals r = (5 * 0.5)%float /\
    (CalciteContent r + QuartzContent r + OtherMinerals r)%float = 5%float.
Proof.
  eexists. split; [vm_compute; reflexivity|]. split; [reflexivity|].
  split; [vm_compute; reflexivity|].
  match goal with
  | |- CalciteContent ?r = _ /\ _ =>
    pose proof (completed_job_minerals Strconv.ParseFloat_decimal Errorf_plain
                  Join_plain default_config (process_exits_ok output_without_block)
                  "job-1" upload empty_service r) as H
  end.
  specialize (H ltac:(vm_compute; reflexivity) eq_refl).
  destruct H as ((Hcalcite & Hquartz & Hother) & Hsum).
  specialize (Hsum ltac:(vm_compute; reflexivity) ltac:(vm_compute; reflexivity)).
  repeat split; assumption.
Defined.

(** C10, as the claim has it: the process reported an impurity of 3.4;
    the job is Completed with that impurity, and the three shares add up
    to 3.4000000000000004. *)
Lemma minerals_do_not_add_up :
  option_map Status
    (final_record "job-1" (run_concrete (process_exits_ok output_impurity_3_4)))
  = Some StatusCompleted /\
  option_map ImpurityContent
    (final_record "job-1" (run_concrete (process_exits_ok output_impurity_3_4)))
  = Some 3.4%float /\
  option_map (fun r => (CalciteContent r + QuartzContent r + OtherMinerals r)%float)
    (final_record "job-1" (run_concrete (process_exits_ok output_impurity_3_4)))
  = Some 0x1.b333333333334p+1%float /\
  (3.4 =? 0x1.b333333333334p+1)%float = false.
Proof. vm_compute. repeat split; reflexivity. Qed.

(** ** The fallback does not depend on anything but the size and the path *)

(** C7.  Two calls of the estimators with the same artifact size and the
    same artifact path return the same purity, the same particle count
    and the same threshold; and two records with the same size and path,
    whatever else they hold and whatever time is recorded, get the same
    purity, particle count and threshold from [record_results] whenever
    these come from the estimators. *)
Theorem fallback_deterministic (r1 r2 : AnalysisResult) (p1 p2 : Parsed) (t1 t2 : Z) :
  ImageSize r1 = ImageSize r2 -> ImagePath r1 = ImagePath r2 ->
  (estimatePurityFromImage (ImageSize r1) (ImagePath r1)
   = estimatePurityFromImage (ImageSize r2) (ImagePath r2) /\
   estimateParticleCount (ImageSize r1) = estimateParticleCount (ImageSize r2) /\
   estimateThreshold (ImageSize r1) = estimateThreshold (ImageSize r2)) /\
  (positive_entry (metrics p1) "purity_percentage" = None ->
   positive_entry (metrics p2) "purity_percentage" = None ->
   PurityPercentage (record_results p1 t1 r1)
   = PurityPercentage (record_results p2 t2 r2)) /\
  ((0 <? particleCount p1) = false -> (0 <? particleCount p2) = false ->
   ParticleCount (record_results p1 t1 r1)
   = ParticleCount (record_results p2 t2 r2)) /\
  (positive_entry (metrics p1) "threshold_value" = None ->
   positive_entry (metrics p2) "threshold_value" = None ->
   ThresholdValue (record_results p1 t1 r1)
   = ThresholdValue (record_results p2 t2 r2)).
Proof.
  intros Hsize Hpath. rewrite !record_results_fields.
  cbn [PurityPercentage ParticleCount ThresholdValue].
  unfold recorded_purity, recorded_count, recorded_threshold.
  rewrite Hsize, Hpath.
  split; [repeat split; reflexivity|].
  split; [intros -> ->; reflexivity|].
  split; [intros -> ->; reflexivity|].
  intros -> ->; reflexivity.
Qed.

(** C7 on two records that agree on the size and the path only. *)
Lemma fallback_deterministic_two_records :
  (estimatePurityFromImage (ImageSize record_one) (ImagePath record_one)
   = estimatePurityFromImage (ImageSize record_two) (ImagePath record_two) /\
   estimateParticleCount (ImageSize record_one)
   = estimateParticleCount (ImageSize record_two) /\
   estimateThreshold (ImageSize record_one) = estimateThreshold (ImageSize record_two)) /\
  PurityPercentage (record_results nothing_parsed 1000 record_one)
  = PurityPercentage (record_results parsed_zeros 2500 record_two) /\
  ParticleCount (record_results nothing_parsed 1000 record_one)
  = ParticleCount (record_results parsed_zeros 2500 record_two) /\
  ThresholdValue (record_results nothing_parsed 1000 record_one)
  = ThresholdValue (record_results parsed_zeros 2500 record_two).
Proof.
  destruct (fallback_deterministic record_one record_two nothing_parsed parsed_zeros
              1000 2500 eq_refl eq_refl) as (Hcalls & Hpurity & Hcount & Hthreshold).
  split; [exact Hcalls|].
  split; [apply Hpurity; reflexivity|].
  split; [apply Hcount; reflexivity|].
  apply Hthreshold; reflexivity.
Defined.

(** ** The life of a record *)

(** C8 on a process that exits with status 1: the record is marked
    Failed and stamped by [performFijiAnalysis], then marked and stamped
    again, with another detail and another time, by [AnalyzeGypsumImage]. *)
Theorem failed_process_recorded_twice :
  let history :=
    job_history "job-1" empty_service (run_concrete (process_exits_1 output_of_failure)) in
  map (option_map Status) history
  = [Some StatusProcessing; Some StatusProcessing; Some StatusFailed; Some StatusFailed] /\
  map (option_map CompletedAt) history
  = [Some None; Some None; Some (Some 3000000000); Some (Some 4000000000)] /\
  map (option_map Error) history
  = [Some EmptyString; Some EmptyString;
     Some "Fiji execution failed: exit status 1"%string;
     Some "Analysis failed: Fiji execution failed: exit status 1"%string].
Proof. vm_compute. repeat split; reflexivity. Qed.

Lemma job_history_of_run (analysisID : string) (st0 : State) (err : option string)
    (final : gmap string AnalysisResult) (n : nat)
    (added : list (gmap string AnalysisResult)) :
  job_history analysisID st0 (Some (err, mkState final n (published st0 ++ added)))
  = map (fun m : gmap string AnalysisResult => m !! analysisID) added.
Proof. unfold job_history. cbn [published]. now rewrite drop_app_length. Qed.

Section Lives.

Variable ParseFloat : string -> option float.
Variable Errorf : string -> string.
Variable Join : string -> string -> string.
Variable config : Config.
Variable world : World.
Variable analysisID : string.
Variable file : FileHeader.
Variable st0 : State.

Local Abbreviation run :=
  (AnalyzeGypsumImage ParseFloat Errorf Join config world analysisID file st0).

Ltac history_of_run :=
  rewrite job_history_of_run; cbn [map]; rewrite !lookup_insert_eq.

(** At every unlock of a run the job's record is there, and it is
    stamped with a completion time exactly when its status is Completed
    or Failed. *)
Theorem stamped_exactly_when_terminal :
  Forall (fun entry : option AnalysisResult =>
            exists r, entry = Some r /\ stamped_iff_terminal r = true)
    (job_history analysisID st0 run).
Proof.
  destruct (save_error world) as [e|] eqn:Hsave.
  { rewrite (run_save_failed ParseFloat Errorf Join config world analysisID file st0
               e Hsave). history_of_run.
    repeat constructor; eexists; split; reflexivity. }
  destruct (write_macro_err world) as [e|] eqn:Hmacro.
  { rewrite (run_macro_failed ParseFloat Errorf Join config world analysisID file st0
               e Hsave Hmacro). history_of_run.
    repeat constructor; eexists; split; reflexivity. }
  destruct (fiji_err world) as [e|] eqn:Hfiji.
  { rewrite (run_process_failed ParseFloat Errorf Join config world analysisID file st0
               e Hsave Hmacro Hfiji). history_of_run.
    repeat constructor; eexists; split; reflexivity. }
  rewrite (run_succeeded ParseFloat Errorf Join config world analysisID file st0
             Hsave Hmacro Hfiji). history_of_run.
  rewrite record_results_fields.
  repeat constructor; eexists; split; reflexivity.
Qed.

(** Unless the process itself fails, the record turns terminal at the
    last unlock of the run and at no unlock before. *)
Theorem terminal_at_last_unlock_only :
  fiji_err world = None \/ save_error world <> None \/ write_macro_err world <> None ->
  exists earlier last,
    job_history analysisID st0 run = map Some earlier ++ [Some last] /\
    terminal (Status last) = true /\
    Forall (fun r => terminal (Status r) = false) earlier.
Proof.
  intros Hpath.
  destruct (save_error world) as [e|] eqn:Hsave.
  { rewrite (run_save_failed ParseFloat Errorf Join config world analysisID file st0
               e Hsave). history_of_run.
    eexists [_]; eexists. split; [reflexivity|]. split; [reflexivity|].
    repeat constructor. }
  destruct (write_macro_err world) as [e|] eqn:Hmacro.
  { rewrite (run_macro_failed ParseFloat Errorf Join config world analysisID file st0
               e Hsave Hmacro). history_of_run.
    eexists [_; _]; eexists. split; [reflexivity|]. split; [reflexivity|].
    repeat constructor. }
  destruct (fiji_err world) as [e|] eqn:Hfiji.
  { exfalso. destruct Hpath as [H|[H|H]]; congruence. }
  rewrite (run_succeeded ParseFloat Errorf Join config world analysisID file st0
             Hsave Hmacro Hfiji). history_of_run.
  eexists [_; _; _]; eexists. split; [reflexivity|]. split; [reflexivity|].
  rewrite record_results_fields. repeat constructor.
Qed.

(** A failure to save the upload is recorded once, with its message, and
    the run ends there: the path of the image is never set and the clock
    is read twice, for the creation and for the failure. *)
Theorem save_failure_recorded (err : string) :
  save_error world = Some err ->
  exists st r,
    run = Some (Some (Errorf (save_failure_message err)), st) /\
    results st !! analysisID = Some r /\
    Status r = StatusFailed /\
    Error r = ("Failed to save uploaded file: " ++ err)%string /\
    CompletedAt r = Some (now world (1 + ticks st0)) /\
    ImagePath r = EmptyString /\
    ticks st = (2 + ticks st0)%nat.
Proof.
  intros Hsave.
  rewrite (run_save_failed ParseFloat Errorf Join config world analysisID file st0
             err Hsave).
  eexists. eexists. split; [reflexivity|]. cbn [results].
  rewrite lookup_insert_eq. repeat split; reflexivity.
Qed.

(** When the process fails, by a non-zero exit or at the deadline, the
    job's record is never Completed, at no unlock of the run. *)
Theorem failed_process_never_completed (err : string) :
  save_error world = None -> write_macro_err world = None ->
  fiji_err world = Some err ->
  Forall (fun entry : option AnalysisResult =>
            exists r, entry = Some r /\ Status r <> StatusCompleted)
    (job_history analysisID st0 run).
Proof.
  intros Hsave Hmacro Hfiji.
  rewrite (run_process_failed ParseFloat Errorf Join config world analysisID file st0
             err Hsave Hmacro Hfiji). history_of_run.
  repeat constructor; eexists; (split; [reflexivity|discriminate]).
Qed.

End Lives.

(** The terminal state is written once when the process exits well. *)
Lemma terminal_at_last_unlock_only_well_formed :
  exists earlier last,
    job_history "job-1" empty_service (run_concrete (process_exits_ok output_well_formed))
    = map Some earlier ++ [Some last] /\
    terminal (Status last) = true /\
    Forall (fun r => terminal (Status r) = false) earlier.
Proof.
  apply (terminal_at_last_unlock_only Strconv.ParseFloat_decimal Errorf_plain
           Join_plain default_config (process_exits_ok output_well_formed)
           "job-1" upload empty_service).
  left. reflexivity.
Defined.

(** A disk that fills up while the upload is copied. *)
Lemma save_failure_recorded_disk_full :
  exists st r,
    run_concrete disk_full
    = Some (Some "Failed to save uploaded file: failed to copy file content: no space left on device"%string, st) /\
    results st !! "job-1"%string = Some r /\
    Status r = StatusFailed /\
    Error r = "Failed to save uploaded file: failed to copy file content: no space left on device"%string /\
    CompletedAt r = Some 1000000000 /\
    ImagePath r = EmptyString /\
    ticks st = 2%nat.
Proof.
  exact (save_failure_recorded Strconv.ParseFloat_decimal Errorf_plain Join_plain
           default_config disk_full "job-1" upload empty_service
           "failed to copy file content: no space left on device" eq_refl).
Defined.

(** A process that exits with status 1 after printing a whole block. *)
Lemma failed_process_never_completed_exit_1 :
  Forall (fun entry : option AnalysisResult =>
            exists r, entry = Some r /\ Status r <> StatusCompleted)
    (job_history "job-1" empty_service (run_concrete (process_exits_1 output_well_formed))).
Proof.
  exact (failed_process_never_completed Strconv.ParseFloat_decimal Errorf_plain
           Join_plain default_config (process_exits_1 output_well_formed)
           "job-1" upload empty_service "exit status 1" eq_refl eq_refl eq_refl).
Defined.


(** * More of the service *)

(** ** What a run leaves alone, returns and records *)

Section Outcomes.

Variable ParseFloat : string -> option float.
Variable Errorf : string -> string.
Variable Join : string -> string -> string.
Variable config : Config.
Variable world : World.
Variable analysisID : string.
Variable file : FileHeader.
Variable st0 : State.

Local Abbreviation run :=
  (AnalyzeGypsumImage ParseFloat Errorf Join config world analysisID file st0).

Ltac on_each_path tac :=
  let e := fresh "e" in
  let Hsave := fresh "Hsave" in
  let Hmacro := fresh "Hmacro" in
  let Hfiji := fresh "Hfiji" in
  destruct (save_error world) as [e|] eqn:Hsave;
  [ rewrite (run_save_failed ParseFloat Errorf Join config world analysisID file st0
               e Hsave); tac
  | destruct (write_macro_err world) as [e|] eqn:Hmacro;
    [ rewrite (run_macro_failed ParseFloat Errorf Join config world analysisID file
                 st0 e Hsave Hmacro); tac
    | destruct (fiji_err world) as [e|] eqn:Hfiji;
      [ rewrite (run_process_failed ParseFloat Errorf Join config world analysisID
                   file st0 e Hsave Hmacro Hfiji); tac
      | rewrite (run_succeeded ParseFloat Errorf Join config world analysisID file
                   st0 Hsave Hmacro Hfiji); tac ] ] ].

(** A run writes to the record of its own job only: the record of any
    other job is, at every unlock and at the end, what it was before. *)
Theorem other_jobs_untouched (other : string) :
  other <> analysisID ->
  exists err st,
    AnalyzeGypsumImage ParseFloat Errorf Join config world analysisID file st0
    = Some (err, st) /\
    results st !! other = results st0 !! other /\
    Forall (fun m : gmap string AnalysisResult => m !! other = results st0 !! other)
      (skipn (List.length (published st0)) (published st)).
Proof.
  intros Hother.
  on_each_path
    ltac:(eexists; eexists; split; [reflexivity|]; cbn [results published];
          rewrite drop_app_length;
          split; [now rewrite lookup_insert_ne by congruence|];
          repeat constructor; now rewrite lookup_insert_ne by congruence).
Qed.

(** The error a run returns is the one made from the detail it recorded:
    the run returns [nil] exactly when the job ends Completed with no
    detail, and otherwise the job ends Failed with a detail that is not
    empty and the run returns [fmt.Errorf] of that detail. *)
Theorem returned_error_is_recorded :
  exists err st r,
    AnalyzeGypsumImage ParseFloat Errorf Join config world analysisID file st0
    = Some (err, st) /\
    results st !! analysisID = Some r /\
    ((err = None /\ Status r = StatusCompleted /\ Error r = EmptyString) \/
     (err = Some (Errorf (Error r)) /\ Status r = StatusFailed /\
      Error r <> EmptyString)).
Proof.
  on_each_path
    ltac:(eexists; eexists; eexists; split; [reflexivity|]; cbn [results];
          split; [apply lookup_insert_eq|]).
  - right. repeat split; discriminate.
  - right. repeat split; discriminate.
  - right. repeat split; discriminate.
  - left. rewrite record_results_fields. repeat split; reflexivity.
Qed.

(** A job that ends Failed holds no analysis value: every metric of its
    record is still zero, and so is the elapsed time. *)
Theorem failed_job_has_no_metrics (r : AnalysisResult) :
  final_record analysisID run = Some r -> Status r = StatusFailed ->
  PurityPercentage r = 0%float /\ Confidence r = 0%float /\
  GypsumContent r = 0%float /\ ImpurityContent r = 0%float /\
  CalciteContent r = 0%float /\ QuartzContent r = 0%float /\
  OtherMinerals r = 0%float /\ ThresholdValue r = 0%float /\
  ParticleCount r = 0 /\ AnalysisTime r = 0.
Proof.
  on_each_path
    ltac:(cbn [final_record results]; rewrite lookup_insert_eq;
          intros Hr Hstatus; injection Hr as <-).
  - repeat split; reflexivity.
  - repeat split; reflexivity.
  - repeat split; reflexivity.
  - rewrite record_results_fields in Hstatus. discriminate Hstatus.
Qed.

(** A failure to write the macro is recorded once, after the path of the
    image was set, with the message of the error. *)
Theorem macro_failure_recorded (err : string) :
  save_error world = None -> write_macro_err world = Some err ->
  exists st r,
    run = Some (Some (Errorf (macro_failure_message err)), st) /\
    results st !! analysisID = Some r /\
    Status r = StatusFailed /\
    Error r = ("Analysis failed: failed to create analysis macro: " ++ err)%string /\
    ImagePath r = job_image_path Join config analysisID file /\
    CompletedAt r = Some (now world (2 + ticks st0)) /\
    map (option_map Status) (job_history analysisID st0 run)
    = [Some StatusProcessing; Some StatusProcessing; Some StatusFailed].
Proof.
  intros Hsave Hmacro.
  rewrite (run_macro_failed ParseFloat Errorf Join config world analysisID file st0
             err Hsave Hmacro).
  eexists. eexists. split; [reflexivity|]. cbn [results].
  rewrite job_history_of_run. cbn [map]. rewrite !lookup_insert_eq.
  repeat split; reflexivity.
Qed.

(** Along the unlocks of a run the job is Processing, then in one
    terminal status for good: it never goes back to Processing and never
    changes from Failed to Completed or from Completed to Failed. *)
Theorem status_never_goes_back :
  exists (before after : nat) (final : AnalysisStatus),
    terminal final = true /\ (1 <= before)%nat /\ (1 <= after)%nat /\
    map (option_map Status) (job_history analysisID st0 run)
    = repeat (Some StatusProcessing) before ++ repeat (Some final) after.
Proof.
  on_each_path
    ltac:(rewrite job_history_of_run; cbn [map]; rewrite !lookup_insert_eq).
  - exists 1%nat, 1%nat, StatusFailed. repeat split; auto.
  - exists 2%nat, 1%nat, StatusFailed. repeat split; auto.
  - exists 2%nat, 2%nat, StatusFailed. repeat split; auto.
  - exists 3%nat, 1%nat, StatusCompleted. rewrite record_results_fields.
    repeat split; auto.
Qed.

(** With a clock that never goes back, the job is completed no earlier
    than it was created and the elapsed time is not negative. *)
Theorem times_in_order (r : AnalysisResult) :
  clock_monotone world ->
  final_record analysisID run = Some r ->
  exists completedAt,
    CompletedAt r = Some completedAt /\ CreatedAt r <= completedAt /\
    0 <= AnalysisTime r.
Proof.
  intros Hclock.
  on_each_path
    ltac:(cbn [final_record results]; rewrite lookup_insert_eq;
          intros Hr; injection Hr as <-).
  - eexists. split; [reflexivity|]. split; [apply Hclock; lia | reflexivity].
  - eexists. split; [reflexivity|]. split; [apply Hclock; lia | reflexivity].
  - eexists. split; [reflexivity|]. split; [apply Hclock; lia | reflexivity].
  - rewrite record_results_fields. eexists. split; [reflexivity|].
    split; [apply Hclock; lia|].
    cbn [AnalysisTime completed_record set_AnalysisTime]. unfold elapsed.
    apply Z.quot_pos; [|lia].
    assert (now world (1 + ticks st0) <= now world (2 + ticks st0))
      by (apply Hclock; lia).
    lia.
Qed.

End Outcomes.

(** ** The estimators, band by band *)

Ltac split_tests :=
  repeat match goal with
         | |- context [if ?b then _ else _] => destruct b eqn:?
         | H : context [if ?b then _ else _] |- _ => destruct b eqn:?
         end.

Ltac each_in_range H :=
  vm_compute in H;
  repeat (destruct H as [<- | H]; [vm_compute; repeat split; reflexivity|]);
  contradiction.

Lemma quot_2000_mono (a b : Z) : a <= b -> Z.quot a 2000 <= Z.quot b 2000.
Proof. intros H. apply Z.quot_le_mono; lia. Qed.

(** The fallback particle count never decreases when the size grows; it
    is 5, the least value, exactly for sizes under 32000 and 100, the
    greatest, exactly from 170000 on. *)
Theorem estimateParticleCount_shape :
  (forall s1 s2 : Z, s1 <= s2 -> estimateParticleCount s1 <= estimateParticleCount s2) /\
  (forall s : Z, estimateParticleCount s = 5 <-> s < 32000) /\
  (forall s : Z, estimateParticleCount s = 100 <-> 170000 <= s).
Proof.
  split; [|split].
  - intros s1 s2 Hle. pose proof (quot_2000_mono s1 s2 Hle).
    assert (H50 : 50000 <= s2 -> 25 <= Z.quot s2 2000)
      by (intros; change 25 with (Z.quot 50000 2000); now apply quot_2000_mono).
    assert (H49 : s1 < 50000 -> Z.quot s1 2000 <= 24)
      by (intros; change 24 with (Z.quot 49999 2000); apply quot_2000_mono; lia).
    assert (H100 : s1 <= 100000 -> Z.quot s1 2000 <= 50)
      by (intros; change 50 with (Z.quot 100000 2000); now apply quot_2000_mono).
    assert (H101 : 100000 < s2 -> 50 <= Z.quot s2 2000)
      by (intros; change 50 with (Z.quot 100001 2000); apply quot_2000_mono; lia).
    unfold estimateParticleCount. split_tests; lia.
  - intros s. unfold estimateParticleCount.
    split_tests; Z.to_euclidean_division_equations; lia.
  - intros s. unfold estimateParticleCount.
    split_tests; Z.to_euclidean_division_equations; lia.
Qed.

Lemma estimatePurity_whole (imageSize : Z) (imagePath : string) :
  estimatePurityFromImage imageSize imagePath
  = GoInt.to_float64 (purity_whole imageSize imagePath).
Proof.
  unfold estimatePurityFromImage, purity_whole.
  generalize (rem_35_bounds (hashString (size_path_key imageSize imagePath))).
  generalize (Z.rem (hashString (size_path_key imageSize imagePath)) 35).
  intros k Hk. apply Z_range_In in Hk.
  destruct (100000 <? imageSize); [| destruct (imageSize <? 50000)];
    each_in_range Hk.
Qed.

Lemma purity_whole_bounds (imageSize : Z) (imagePath : string) :
  30 <= purity_whole imageSize imagePath <= 95.
Proof. unfold purity_whole. lia. Qed.

Lemma whole_purity_complement (k : Z) :
  30 <= k <= 95 ->
  (GoInt.to_float64 k + (100 - GoInt.to_float64 k))%float = 100%float.
Proof. intros Hk. apply Z_range_In in Hk. each_in_range Hk. Qed.

(** Size by size: an upload under 50000 bytes gets a fallback purity of
    at most 84 and at most 14 particles; one over 100000 bytes gets a
    purity of at least 31 and at least 65 particles; one in between gets
    25 to 50 particles.  For a size that is not negative the threshold is
    120 plus half the size modulo 60, less 20 in the first band and plus
    15 in the last, so that it stays between 100 and 164.5 and neither
    bound of the clamp is reached. *)
Theorem estimates_by_band (imageSize : Z) (imagePath : string) :
  (imageSize < 50000 ->
   (estimatePurityFromImage imageSize imagePath <=? 84)%float = true /\
   estimateParticleCount imageSize <= 14) /\
  (100000 < imageSize ->
   (31 <=? estimatePurityFromImage imageSize imagePath)%float = true /\
   65 <= estimateParticleCount imageSize) /\
  (50000 <= imageSize <= 100000 -> 25 <= estimateParticleCount imageSize <= 50) /\
  (0 <= imageSize ->
   estimateThreshold imageSize
   = (120 + GoInt.to_float64 (imageSize mod 60) * 0.5
      + (if (100000 <? imageSize)%Z then 15
         else if (imageSize <? 50000)%Z then -20 else 0))%float
   /\ (100 <=? estimateThreshold imageSize)%float = true
   /\ (estimateThreshold imageSize <=? 164.5)%float = true).
Proof.
  assert (Hpurity : forall k, 30 <= k <= 95 ->
            ((GoInt.to_float64 k <=? 84)%float = true <-> k <= 84) /\
            ((31 <=? GoInt.to_float64 k)%float = true <-> 31 <= k)).
  { intros k Hk. apply Z_range_In in Hk. vm_compute in Hk.
    repeat (destruct Hk as [<- | Hk];
            [vm_compute; repeat split; intros; (reflexivity || discriminate || lia
                                                || (exfalso; auto))|]).
    contradiction. }
  pose proof (purity_whole_bounds imageSize imagePath) as Hwhole.
  split; [|split; [|split]].
  - intros Hsmall. split.
    + rewrite estimatePurity_whole. apply (Hpurity _ Hwhole).
      unfold purity_whole.
      pose proof (rem_35_bounds (hashString (size_path_key imageSize imagePath))).
      split_tests; lia.
    + unfold estimateParticleCount.
      split_tests; Z.to_euclidean_division_equations; lia.
  - intros Hlarge. split.
    + rewrite estimatePurity_whole. apply (Hpurity _ Hwhole).
      unfold purity_whole.
      pose proof (rem_35_bounds (hashString (size_path_key imageSize imagePath))).
      split_tests; lia.
    + unfold estimateParticleCount.
      split_tests; Z.to_euclidean_division_equations; lia.
  - intros Hmid. unfold estimateParticleCount.
    split_tests; Z.to_euclidean_division_equations; lia.
  - intros Hsize. rewrite estimateThreshold_by_band.
    rewrite Z.rem_mod_nonneg by lia.
    pose proof (Z.mod_pos_bound imageSize 60 ltac:(lia)) as Hr.
    unfold size_band, threshold_of. cbn [fst snd].
    revert Hr. generalize (imageSize mod 60). intros r Hr.
    assert (Hin : In r (Z_range 0 59)) by (apply Z_range_In; lia).
    destruct (100000 <? imageSize); [| destruct (imageSize <? 50000)];
      each_in_range Hin.
Qed.

(** ** The hash *)

Lemma wrap64_shift (z : Z) : exists k : Z, GoInt.wrap64 z = z + k * 2 ^ 64.
Proof.
  unfold GoInt.wrap64. exists (- ((z + 2 ^ 63) / 2 ^ 64)).
  pose proof (Z.div_mod (z + 2 ^ 63) (2 ^ 64) ltac:(lia)). lia.
Qed.

Lemma wrap64_range (z : Z) : - 2 ^ 63 <= GoInt.wrap64 z < 2 ^ 63.
Proof.
  unfold GoInt.wrap64.
  pose proof (Z.mod_pos_bound (z + 2 ^ 63) (2 ^ 64) ltac:(lia)). lia.
Qed.

Lemma wrap64_congruent (a b k : Z) : a = b + k * 2 ^ 64 -> GoInt.wrap64 a = GoInt.wrap64 b.
Proof.
  intros ->. unfold GoInt.wrap64.
  replace (b + k * 2 ^ 64 + 2 ^ 63) with (b + 2 ^ 63 + k * 2 ^ 64) by lia.
  now rewrite Z.mod_add by lia.
Qed.

Lemma hash_step (p h c : Z) :
  h = GoInt.wrap64 p ->
  Z.land (GoInt.add (GoInt.sub (GoInt.shl h 5) h) c)
         (GoInt.add (GoInt.sub (GoInt.shl h 5) h) c)
  = GoInt.wrap64 (31 * p + c).
Proof.
  intros ->. rewrite Z.land_diag.
  unfold GoInt.add, GoInt.sub, GoInt.shl. rewrite Z.shiftl_mul_pow2 by lia.
  destruct (wrap64_shift p) as [k1 H1].
  destruct (wrap64_shift (GoInt.wrap64 p * 2 ^ 5)) as [k2 H2].
  destruct (wrap64_shift (GoInt.wrap64 (GoInt.wrap64 p * 2 ^ 5) - GoInt.wrap64 p))
    as [k3 H3].
  apply (wrap64_congruent _ _ (31 * k1 + k2 + k3)). lia.
Qed.

(** The hash is the polynomial in 31 over the runes of the text, wrapped
    to 64 bits; the step [hash & hash] takes nothing off, so the value is
    in general no 32-bit integer. *)
Theorem hashString_is_poly31 (input : string) :
  hashString input = GoInt.wrap64 (poly31 (Utf8.runes input)) /\
  - 2 ^ 63 <= hashString input < 2 ^ 63.
Proof.
  assert (Hfold : forall runes h p,
             h = GoInt.wrap64 p ->
             fold_left
               (fun hash char =>
                  let hash := GoInt.add (GoInt.sub (GoInt.shl hash 5) hash) char in
                  Z.land hash hash) runes h
             = GoInt.wrap64 (fold_left (fun h c => 31 * h + c) runes p)).
  { induction runes as [|c runes IH]; intros h p Hh; simpl; [exact Hh|].
    apply IH. now apply hash_step. }
  assert (Heq : hashString input = GoInt.wrap64 (poly31 (Utf8.runes input))).
  { unfold hashString, poly31. now apply Hfold. }
  split; [exact Heq|]. rewrite Heq. apply wrap64_range.
Qed.

(** ** Confidence grows with the count and with the coverage *)

(** The score never drops when the particle count grows and the coverage
    test, if it was passed, is passed still. *)
Theorem calculateConfidence_monotone (results1 results2 : gmap string float)
    (count1 count2 : Z) :
  count1 <= count2 ->
  (covered results1 = true -> covered results2 = true) ->
  (calculateConfidence results1 count1 <=? calculateConfidence results2 count2)%float
  = true.
Proof.
  intros Hcount Hcovered. rewrite !calculateConfidence_values.
  destruct (covered results1), (covered results2);
    try (specialize (Hcovered eq_refl); discriminate Hcovered);
    destruct (10 <? count1) eqn:?, (50 <? count1) eqn:?,
      (10 <? count2) eqn:?, (50 <? count2) eqn:?;
    try (exfalso; lia); vm_compute; reflexivity.
Qed.

(** ** What the record is made from *)

(** The record is made from six keys of the parsed map and from the
    particle count: two parsed sets that agree on them give the same
    record, whatever else they hold. *)
Theorem record_results_reads_known_keys (p1 p2 : Parsed) (t : Z) (r : AnalysisResult) :
  (forall key : string, In key known_keys -> metrics p1 !! key = metrics p2 !! key) ->
  particleCount p1 = particleCount p2 ->
  record_results p1 t r = record_results p2 t r.
Proof.
  intros Hkeys Hcount. rewrite !record_results_fields.
  unfold recorded_gypsum, recorded_impurity, recorded_purity, recorded_threshold,
    recorded_count, calculateConfidence, positive_entry, at_key.
  rewrite Hcount.
  rewrite !(Hkeys "purity_percentage"%string), !(Hkeys "gypsum_content"%string),
    !(Hkeys "impurity_content"%string), !(Hkeys "threshold_value"%string),
    !(Hkeys "total_area"%string), !(Hkeys "image_area"%string)
    by (unfold known_keys; simpl; tauto).
  reflexivity.
Qed.

Section Scanned.

Variable ParseFloat : string -> option float.

Lemma Atoi_range (s : string) (n : Z) :
  Strconv.Atoi s = Some n -> - 2 ^ 63 <= n <= 2 ^ 63 - 1.
Proof.
  unfold Strconv.Atoi. destruct s as [|c r]; [discriminate|].
  destruct (if Ascii.eqb c "-" || Ascii.eqb c "+" then r else String c r);
    [discriminate|].
  destruct (Strconv.digits _ 0) as [m|]; [|discriminate].
  destruct ((- 2 ^ 63 <=? (if Ascii.eqb c "-" then - m else m))
            && ((if Ascii.eqb c "-" then - m else m) <=? 2 ^ 63 - 1)) eqn:Hrange;
    [|discriminate].
  intros [= <-]. lia.
Qed.

Lemma parse_line_keeps_int (line : string) (st : Parsed) :
  (- 2 ^ 63 <= particleCount st <= 2 ^ 63 - 1 /\
   metrics st !! "particle_count"%string = None) ->
  - 2 ^ 63 <= particleCount (parse_line ParseFloat line st) <= 2 ^ 63 - 1 /\
  metrics (parse_line ParseFloat line st) !! "particle_count"%string = None.
Proof.
  intros [Hrange Hkey]. unfold parse_line.
  destruct (inResults st && GoStrings.Contains line ":"); [|now split].
  destruct (GoStrings.SplitN line ":" 2) as [|key [|valueStr [|]]]; try now split.
  destruct (String.eqb key "particle_count") eqn:Hname.
  - destruct (Strconv.Atoi valueStr) as [count|] eqn:Hcount; [|now split].
    split; [exact (Atoi_range _ _ Hcount) | exact Hkey].
  - destruct (ParseFloat valueStr); [|now split].
    split; [exact Hrange|]. cbn [metrics].
    apply String.eqb_neq in Hname. now rewrite lookup_insert_ne.
Qed.

(** Whatever the output, the parsed particle count is a value of Go's
    [int], and the key particle_count never enters the map of floats. *)
Theorem parsed_count_is_an_int (output : string) :
  - 2 ^ 63 <= particleCount (parse_output ParseFloat output) <= 2 ^ 63 - 1 /\
  metrics (parse_output ParseFloat output) !! "particle_count"%string = None.
Proof.
  unfold parse_output.
  assert (Hstart : - 2 ^ 63 <= particleCount nothing_parsed <= 2 ^ 63 - 1 /\
                   metrics nothing_parsed !! "particle_count"%string = None)
    by (split; [cbn; lia | reflexivity]).
  revert Hstart. generalize nothing_parsed.
  induction (GoStrings.Split output newline) as [|line rest IH]; intros st Hst;
    simpl; [exact Hst|].
  destruct (String.eqb (GoStrings.TrimSpace line) RESULTS_START).
  - apply IH. exact Hst.
  - destruct (String.eqb (GoStrings.TrimSpace line) RESULTS_END); [exact Hst|].
    apply IH. now apply parse_line_keeps_int.
Qed.

End Scanned.

(** ** Jobs filled by the fallback alone *)

Section Fallback.

Variable ParseFloat : string -> option float.
Variable Errorf : string -> string.
Variable Join : string -> string -> string.
Variable config : Config.
Variable world : World.
Variable analysisID : string.
Variable file : FileHeader.
Variable st0 : State.

Local Abbreviation run :=
  (AnalyzeGypsumImage ParseFloat Errorf Join config world analysisID file st0).
Local Abbreviation parsed := (parse_output ParseFloat (fiji_output world)).

(** When a job ends Completed and neither the purity, nor the gypsum
    content, nor the impurity was parsed with a value over zero, the
    purity is a whole number from 30 to 95, the gypsum content is the
    purity, and gypsum content and impurity add up to 100 exactly. *)
Theorem fallback_composition (r : AnalysisResult) :
  final_record analysisID run = Some r -> Status r = StatusCompleted ->
  positive_entry (metrics parsed) "purity_percentage" = None ->
  positive_entry (metrics parsed) "gypsum_content" = None ->
  positive_entry (metrics parsed) "impurity_content" = None ->
  exists whole : Z,
    30 <= whole <= 95 /\
    PurityPercentage r = GoInt.to_float64 whole /\
    GypsumContent r = PurityPercentage r /\
    (GypsumContent r + ImpurityContent r)%float = 100%float.
Proof.
  intros Hfinal Hstatus Hpurity Hgypsum Himpurity.
  destruct (completed_job ParseFloat Errorf Join config world analysisID file st0
              r Hfinal Hstatus) as (_ & _ & _ & ->).
  rewrite record_results_fields. unfold completed_record.
  cbn [PurityPercentage GypsumContent ImpurityContent
         set_AnalysisTime set_CompletedAt set_Status].
  unfold recorded_gypsum, recorded_impurity, recorded_purity.
  rewrite Hpurity, Hgypsum, Himpurity.
  cbn [ImageSize ImagePath set_ImagePath new_result].
  rewrite estimatePurity_whole.
  eexists. split; [apply purity_whole_bounds|].
  split; [reflexivity|]. split; [reflexivity|].
  apply whole_purity_complement, purity_whole_bounds.
Qed.

End Fallback.

(** ** The endpoints *)

Lemma lower_byte_dot (c : ascii) : Handlers.lower_byte c = "."%char -> c = "."%char.
Proof.
  destruct c as [[] [] [] [] [] [] [] []]; vm_compute; intros H;
    solve [reflexivity | discriminate H].
Qed.

Lemma lower_byte_letter (c : ascii) :
  is_lower_letter (Handlers.lower_byte c) = true -> is_letter c = true.
Proof.
  destruct c as [[] [] [] [] [] [] [] []]; vm_compute; intros H;
    solve [reflexivity | discriminate H].
Qed.

Lemma lower_bytes_letters (s : string) :
  forallb is_lower_letter (list_ascii_of_string (Handlers.lower_bytes s)) = true ->
  forallb is_letter (list_ascii_of_string s) = true.
Proof.
  induction s as [|c r IH]; simpl; [reflexivity|].
  intros H. apply andb_true_iff in H as [Hc Hr].
  apply andb_true_iff. split; [now apply lower_byte_letter | now apply IH].
Qed.

Lemma lower_bytes_length (s : string) :
  String.length (Handlers.lower_bytes s) = String.length s.
Proof. induction s as [|c r IH]; simpl; [reflexivity | now rewrite IH]. Qed.

Lemma lower_bytes_without_upper (s : string) :
  Handlers.has_upper s = false -> Handlers.lower_bytes s = s.
Proof.
  induction s as [|c r IH]; simpl; [reflexivity|].
  intros H. apply orb_false_iff in H as [Hc Hr].
  unfold Handlers.lower_byte. now rewrite Hc, IH.
Qed.

Lemma lowered_extension_is_plain (ext letters : string) :
  Handlers.lower_bytes ext = String "." letters ->
  forallb is_lower_letter (list_ascii_of_string letters) = true ->
  ((3 <=? String.length letters)%nat && (String.length letters <=? 4)%nat) = true ->
  plain_extension ext = true.
Proof.
  intros Hlower Hletters Hlength. destruct ext as [|c r]; [discriminate Hlower|].
  simpl in Hlower. injection Hlower as Hc Hr.
  apply lower_byte_dot in Hc. subst c. unfold plain_extension.
  rewrite <- Hr in Hletters. apply lower_bytes_letters in Hletters.
  rewrite <- Hr, lower_bytes_length in Hlength.
  apply andb_true_iff in Hlength as [Hmin Hmax].
  now rewrite Hletters, Hmin, Hmax.
Qed.

Section Identity.

Variable ParseFloat : string -> option float.
Variable Errorf : string -> string.
Variable Join : string -> string -> string.
Variable config : Config.
Variable world : World.
Variable analysisID : string.
Variable file : FileHeader.
Variable st0 : State.

Lemma run_final_identity :
  exists err st r,
    AnalyzeGypsumImage ParseFloat Errorf Join config world analysisID file st0
    = Some (err, st) /\
    results st !! analysisID = Some r /\
    ID r = analysisID /\ ImageSize r = Size file /\ terminal (Status r) = true.
Proof.
  destruct (save_error world) as [e|] eqn:Hsave.
  { rewrite (run_save_failed ParseFloat Errorf Join config world analysisID file st0
               e Hsave).
    eexists; eexists; eexists. split; [reflexivity|]. cbn [results].
    split; [apply lookup_insert_eq|]. repeat split; reflexivity. }
  destruct (write_macro_err world) as [e|] eqn:Hmacro.
  { rewrite (run_macro_failed ParseFloat Errorf Join config world analysisID file st0
               e Hsave Hmacro).
    eexists; eexists; eexists. split; [reflexivity|]. cbn [results].
    split; [apply lookup_insert_eq|]. repeat split; reflexivity. }
  destruct (fiji_err world) as [e|] eqn:Hfiji.
  { rewrite (run_process_failed ParseFloat Errorf Join config world analysisID file st0
               e Hsave Hmacro Hfiji).
    eexists; eexists; eexists. split; [reflexivity|]. cbn [results].
    split; [apply lookup_insert_eq|]. repeat split; reflexivity. }
  rewrite (run_succeeded ParseFloat Errorf Join config world analysisID file st0
             Hsave Hmacro Hfiji).
  eexists; eexists; eexists. split; [reflexivity|]. cbn [results].
  split; [apply lookup_insert_eq|]. rewrite record_results_fields.
  repeat split; reflexivity.
Qed.

End Identity.

Section Uploads.

Variable ToLower_runes : string -> string.

Lemma ToLower_of_ascii (s : string) :
  Handlers.all_ascii s = true -> Handlers.ToLower ToLower_runes s = Handlers.lower_bytes s.
Proof.
  intros Hascii. unfold Handlers.ToLower. rewrite Hascii.
  destruct (Handlers.has_upper s) eqn:Hupper; [reflexivity|].
  symmetry. now apply lower_bytes_without_upper.
Qed.

(** An upload whose extension is ASCII is either accepted, and then its
    extension is a dot followed by three or four ASCII letters (so the
    path of the saved image gets no separator, quote or line break from
    it) that read jpg, jpeg, png, tiff or tif in lower case; or it is
    refused with status 400 and no job is started.  The declared size of
    the upload plays no part. *)
Theorem upload_accepted_or_refused (file : FileHeader) (uuid : string) :
  Handlers.all_ascii (Ext (Filename file)) = true ->
  (Handlers.AnalyzeGypsum ToLower_runes (Some file) uuid
   = (Handlers.mkResponse 202
        (Handlers.AcceptedBody uuid "processing" "Analysis started successfully"),
      Some (uuid, file)) /\
   plain_extension (Ext (Filename file)) = true /\
   In (Handlers.lower_bytes (Ext (Filename file)))
     [".jpg"; ".jpeg"; ".png"; ".tiff"; ".tif"]%string) \/
  (Handlers.AnalyzeGypsum ToLower_runes (Some file) uuid
   = (Handlers.mkResponse 400
        (Handlers.ErrorBody
           "Unsupported file type. Please upload JPG, PNG, or TIFF images"),
      None) /\
   ~ In (Handlers.lower_bytes (Ext (Filename file)))
     [".jpg"; ".jpeg"; ".png"; ".tiff"; ".tif"]%string).
Proof.
  intros Hascii. unfold Handlers.AnalyzeGypsum.
  rewrite (ToLower_of_ascii _ Hascii).
  destruct (String.eqb (Handlers.lower_bytes (Ext (Filename file))) ".jpg") eqn:Hjpg;
    [|destruct (String.eqb (Handlers.lower_bytes (Ext (Filename file))) ".jpeg") eqn:Hjpeg;
      [|destruct (String.eqb (Handlers.lower_bytes (Ext (Filename file))) ".png") eqn:Hpng;
        [|destruct (String.eqb (Handlers.lower_bytes (Ext (Filename file))) ".tiff") eqn:Htiff;
          [|destruct (String.eqb (Handlers.lower_bytes (Ext (Filename file))) ".tif") eqn:Htif]]]];
    cbn [negb andb].
  1-5: left; split; [reflexivity|];
    match goal with
    | H : String.eqb _ _ = true |- _ => apply String.eqb_eq in H
    end;
    (split;
     [ eapply lowered_extension_is_plain; [eassumption | reflexivity | reflexivity]
     | match goal with H : Handlers.lower_bytes _ = _ |- _ => rewrite H end;
       simpl; tauto ]).
  right. split; [reflexivity|].
  apply String.eqb_neq in Hjpg, Hjpeg, Hpng, Htiff, Htif.
  simpl. intros [H|[H|[H|[H|[H|[]]]]]]; congruence.
Qed.

End Uploads.

Section Polling.

Variable ToLower_runes : string -> string.
Variable ParseFloat : string -> option float.
Variable Errorf : string -> string.
Variable Join : string -> string -> string.
Variable config : Config.
Variable world : World.
Variable st0 : State.

(** Submitting and polling.  An accepted upload is answered with the
    identifier the job will run under; the handler itself stores nothing,
    so that a poll made before the job has started is answered 404 when
    the identifier is new; once the job has run, in whatever way, a poll
    is answered 200 with the job's record, which carries the identifier
    and the size of the upload and is Completed or Failed. *)
Theorem submit_then_poll (file : FileHeader) (uuid : string)
    (response : Handlers.Response) (started : string * FileHeader) :
  uuid <> EmptyString ->
  Handlers.AnalyzeGypsum ToLower_runes (Some file) uuid = (response, Some started) ->
  started = (uuid, file) /\
  response
  = Handlers.mkResponse 202
      (Handlers.AcceptedBody uuid "processing" "Analysis started successfully") /\
  (results st0 !! uuid = None ->
   Handlers.GetAnalysisStatus uuid st0
   = Some (Handlers.mkResponse 404 (Handlers.ErrorBody "Analysis not found"), st0)) /\
  exists err st r,
    AnalyzeGypsumImage ParseFloat Errorf Join config world (fst started) (snd started) st0
    = Some (err, st) /\
    Handlers.GetAnalysisStatus uuid st
    = Some (Handlers.mkResponse 200 (Handlers.ResultBody r), st) /\
    ID r = uuid /\ ImageSize r = Size file /\ terminal (Status r) = true.
Proof.
  intros Huuid Hsubmit.
  assert (Hpoll : forall st, Handlers.GetAnalysisStatus uuid st
            = match results st !! uuid with
              | Some r => Some (Handlers.mkResponse 200 (Handlers.ResultBody r), st)
              | None =>
                Some (Handlers.mkResponse 404 (Handlers.ErrorBody "Analysis not found"), st)
              end).
  { intros st. unfold Handlers.GetAnalysisStatus.
    apply String.eqb_neq in Huuid. rewrite Huuid.
    unfold bind, GetAnalysisStatus, lookup_result, ret.
    destruct (results st !! uuid); reflexivity. }
  unfold Handlers.AnalyzeGypsum in Hsubmit.
  destruct (negb _ && _ && _ && _ && _) in Hsubmit; [discriminate Hsubmit|].
  injection Hsubmit as <- <-.
  split; [reflexivity|]. split; [reflexivity|].
  split; [intros Hnew; now rewrite Hpoll, Hnew|].
  cbn [fst snd].
  destruct (run_final_identity ParseFloat Errorf Join config world uuid file st0)
    as (err & st & r & Hrun & Hfinal & Hid & Hsize & Hterminal).
  exists err, st, r. split; [exact Hrun|].
  split; [now rewrite Hpoll, Hfinal|]. now repeat split.
Qed.

End Polling.

(** ** The key that is hashed *)

Lemma read_digits_numeral (d : Decimal.uint) (rest : string) (acc : Z) :
  read_digits (NilEmpty.string_of_uint d ++ String "-" rest) acc
  = (numeral_value d acc, String "-" rest).
Proof.
  revert acc. induction d; intros acc; simpl; [reflexivity| ..];
    rewrite IHd; f_equal; f_equal; vm_compute (Utf8.byte _); lia.
Qed.

Lemma numeral_value_acc (d : Decimal.uint) (acc : positive) :
  numeral_value d (Zpos acc) = Zpos (Pos.of_uint_acc d acc).
Proof.
  revert acc. induction d; intros acc; simpl; try reflexivity;
    rewrite <- IHd; f_equal; lia.
Qed.

Lemma numeral_value_of_uint (d : Decimal.uint) :
  numeral_value d 0 = Z.of_N (Pos.of_uint d).
Proof.
  induction d; simpl; try reflexivity; try exact IHd;
    change (10 * 0 + _) with (Zpos 1%positive + 0) || idtac;
    apply (numeral_value_acc d).
Qed.

Lemma numeral_value_to_uint (p : positive) : numeral_value (Pos.to_uint p) 0 = Zpos p.
Proof. rewrite numeral_value_of_uint, DecimalPos.Unsigned.of_to. reflexivity. Qed.

Lemma to_uint_starts_with_digit (p : positive) (rest : string) :
  exists c tail,
    (NilZero.string_of_uint (Pos.to_uint p) ++ rest)%string = String c tail /\
    Ascii.eqb c "-" = false /\
    NilZero.string_of_uint (Pos.to_uint p) = NilEmpty.string_of_uint (Pos.to_uint p).
Proof.
  pose proof (DecimalPos.Unsigned.to_uint_nonnil p) as Hnil.
  destruct (Pos.to_uint p); [contradiction| ..]; simpl; eauto.
Qed.

(** The key built from a size and a path can be read back: no two
    uploads that differ in size or in path are hashed from the same key. *)
Theorem size_path_key_read_back (imageSize : Z) (imagePath : string) :
  read_key (size_path_key imageSize imagePath) = Some (imageSize, imagePath) /\
  (forall (otherSize : Z) (otherPath : string),
      size_path_key otherSize otherPath = size_path_key imageSize imagePath ->
      otherSize = imageSize /\ otherPath = imagePath).
Proof.
  assert (Hread : forall (n : Z) (path : string),
             read_key (size_path_key n path) = Some (n, path)).
  { intros n path. unfold size_path_key, GoInt.to_decimal, read_key.
    destruct n as [|p|p]; cbn [Z.to_int NilZero.string_of_int].
    - reflexivity.
    - destruct (to_uint_starts_with_digit p (String "-" path))
        as (c & tail & Hkey & Hc & Hplain).
      change ("-" ++ path)%string with (String "-" path).
      rewrite Hkey, Hc. cbn [snd fst]. rewrite <- Hkey, Hplain.
      now rewrite read_digits_numeral, numeral_value_to_uint.
    - destruct (to_uint_starts_with_digit p (String "-" path))
        as (c & tail & Hkey & Hc & Hplain).
      change ("-" ++ path)%string with (String "-" path).
      simpl. rewrite Hplain, read_digits_numeral, numeral_value_to_uint.
      reflexivity. }
  split; [apply Hread|].
  intros otherSize otherPath Hkey.
  pose proof (Hread otherSize otherPath) as Hother.
  rewrite Hkey, Hread in Hother. now injection Hother as -> ->.
Qed.

(** ** The statements above on concrete runs *)

(** A job run on a service that holds the record of another job. *)
Lemma other_jobs_untouched_busy :
  exists err st,
    AnalyzeGypsumImage Strconv.ParseFloat_decimal Errorf_plain Join_plain
      default_config (process_exits_ok output_well_formed) "job-1" upload busy_service
    = Some (err, st) /\
    results st !! "job-0"%string = results busy_service !! "job-0"%string /\
    Forall (fun m : gmap string AnalysisResult =>
              m !! "job-0"%string = results busy_service !! "job-0"%string)
      (skipn (List.length (published busy_service)) (published st)).
Proof.
  exact (other_jobs_untouched Strconv.ParseFloat_decimal Errorf_plain Join_plain
           default_config (process_exits_ok output_well_formed) "job-1" upload
           busy_service "job-0" ltac:(discriminate)).
Defined.

(** A process that exits with status 1 after printing a whole block. *)
Lemma failed_job_has_no_metrics_exit_1 :
  exists r,
    final_record "job-1" (run_concrete (process_exits_1 output_well_formed)) = Some r /\
    Status r = StatusFailed /\
    PurityPercentage r = 0%float /\ Confidence r = 0%float /\
    GypsumContent r = 0%float /\ ImpurityContent r = 0%float /\
    CalciteContent r = 0%float /\ QuartzContent r = 0%float /\
    OtherMinerals r = 0%float /\ ThresholdValue r = 0%float /\
    ParticleCount r = 0 /\ AnalysisTime r = 0.
Proof.
  eexists. split; [vm_compute; reflexivity|]. split; [reflexivity|].
  apply (failed_job_has_no_metrics Strconv.ParseFloat_decimal Errorf_plain
           Join_plain default_config (process_exits_1 output_well_formed)
           "job-1" upload empty_service);
    [vm_compute; reflexivity | reflexivity].
Defined.

(** A scratch directory the macro cannot be written to. *)
Lemma macro_failure_recorded_permission :
  exists st r,
    run_concrete macro_not_written
    = Some (Some "Analysis failed: failed to create analysis macro: permission denied"%string,
            st) /\
    results st !! "job-1"%string = Some r /\
    Status r = StatusFailed /\
    Error r = "Analysis failed: failed to create analysis macro: permission denied"%string /\
    ImagePath r = "/tmp/gypsum-analysis/job-1.png"%string /\
    CompletedAt r = Some 2000000000 /\
    map (option_map Status) (job_history "job-1" empty_service (run_concrete macro_not_written))
    = [Some StatusProcessing; Some StatusProcessing; Some StatusFailed].
Proof.
  exact (macro_failure_recorded Strconv.ParseFloat_decimal Errorf_plain Join_plain
           default_config macro_not_written "job-1" upload empty_service
           "permission denied" eq_refl eq_refl).
Defined.

Lemma clock_seconds_monotone (output : string) :
  clock_monotone (process_exits_ok output).
Proof.
  intros a b Hab. cbn [now process_exits_ok]. unfold clock_seconds. lia.
Defined.

(** A clock read once a second. *)
Lemma times_in_order_seconds :
  exists r,
    final_record "job-1" (run_concrete (process_exits_ok output_well_formed)) = Some r /\
    exists completedAt,
      CompletedAt r = Some completedAt /\ CreatedAt r <= completedAt /\
      0 <= AnalysisTime r.
Proof.
  eexists. split; [vm_compute; reflexivity|].
  apply (times_in_order Strconv.ParseFloat_decimal Errorf_plain Join_plain
           default_config (process_exits_ok output_well_formed) "job-1" upload
           empty_service);
    [apply clock_seconds_monotone | vm_compute; reflexivity].
Defined.

(** Twelve particles with no coverage against sixty with half of it. *)
Lemma calculateConfidence_monotone_12_60 :
  (calculateConfidence ∅ 12 <=? calculateConfidence sixty_particles_half_covered 60)%float
  = true.
Proof.
  apply calculateConfidence_monotone; [lia | reflexivity].
Defined.

(** Two parsed sets that differ in keys nobody reads. *)
Lemma record_results_reads_known_keys_two_sets :
  record_results parsed_zeros 1000 record_one
  = record_results parsed_with_unknown_keys 1000 record_one.
Proof.
  apply record_results_reads_known_keys; [|reflexivity].
  intros key [<-|[<-|[<-|[<-|[<-|[<-|[]]]]]]]; reflexivity.
Defined.

(** An output without a block: everything is a fallback. *)
Lemma fallback_composition_without_block :
  exists r,
    final_record "job-1" (run_concrete (process_exits_ok output_without_block)) = Some r /\
    Status r = StatusCompleted /\
    exists whole,
      30 <= whole <= 95 /\
      PurityPercentage r = GoInt.to_float64 whole /\
      GypsumContent r = PurityPercentage r /\
      (GypsumContent r + ImpurityContent r)%float = 100%float.
Proof.
  eexists. split; [vm_compute; reflexivity|]. split; [reflexivity|].
  apply (fallback_composition Strconv.ParseFloat_decimal Errorf_plain Join_plain
           default_config (process_exits_ok output_without_block) "job-1" upload
           empty_service);
    [vm_compute; reflexivity | reflexivity | vm_compute; reflexivity ..].
Defined.

(** A name in upper case with two dots. *)
Lemma upload_accepted_upper_case :
  Handlers.AnalyzeGypsum ToLower_runes_unused (Some upload_upper_case) some_uuid
  = (Handlers.mkResponse 202
       (Handlers.AcceptedBody some_uuid "processing" "Analysis started successfully"),
     Some (some_uuid, upload_upper_case)) /\
  Ext (Filename upload_upper_case) = ".TIFF"%string /\
  plain_extension (Ext (Filename upload_upper_case)) = true.
Proof.
  destruct (upload_accepted_or_refused ToLower_runes_unused upload_upper_case
              some_uuid eq_refl) as [(Hanswer & Hplain & _)|[Hanswer _]].
  - split; [exact Hanswer|]. split; [reflexivity | exact Hplain].
  - discriminate Hanswer.
Defined.

(** The same upload, submitted to an empty service and polled. *)
Lemma submit_then_poll_upper_case :
  Handlers.GetAnalysisStatus some_uuid empty_service
  = Some (Handlers.mkResponse 404 (Handlers.ErrorBody "Analysis not found"),
          empty_service) /\
  exists err st r,
    AnalyzeGypsumImage Strconv.ParseFloat_decimal Errorf_plain Join_plain
      default_config (process_exits_ok output_well_formed) some_uuid upload_upper_case
      empty_service
    = Some (err, st) /\
    Handlers.GetAnalysisStatus some_uuid st
    = Some (Handlers.mkResponse 200 (Handlers.ResultBody r), st) /\
    ID r = some_uuid /\ ImageSize r = 2048 /\ terminal (Status r) = true.
Proof.
  destruct (submit_then_poll ToLower_runes_unused Strconv.ParseFloat_decimal
              Errorf_plain Join_plain default_config
              (process_exits_ok output_well_formed) empty_service
              upload_upper_case some_uuid _ (some_uuid, upload_upper_case)
              ltac:(discriminate) ltac:(vm_compute; reflexivity))
    as (_ & _ & Hnew & Hrun).
  split; [apply Hnew; vm_compute; reflexivity | exact Hrun].
Defined.
